(** * SqExcel backend: a shallow embedding of [backend/seeq_runner.py]

    The runner is a process-boundary adapter between a spreadsheet host and
    the SPy analytics client.  This development embeds its operations as
    Rocq functions and states the properties of the date/time normaliser,
    the JSON sanitiser and the query orchestrator over that embedding.

    Conventions.
    - Python values are the inductive [pyval]; a [dict] is an association
      list in insertion order, a pandas frame is the list of its records.
    - The SPy client, pandas' parsers and the clock-free part of [dateutil]
      are external: they are the fields of a [World] record, pure functions
      that either return a value or raise.
    - Python control flow ([return] inside nested [try] blocks, exceptions)
      is carried by the monad [M], whose outcomes are normal completion,
      an early [return] and a raised exception.
    - Writes to [sys.stderr] (the [[DEBUG]] lines) have no effect on any
      returned value and are left out. *)

From Stdlib Require Import ZArith List String Ascii Bool Lia.
From Stdlib Require Import Floats.SpecFloat.
From Stdlib Require DecimalString.
Import ListNotations.
Open Scope string_scope.
Open Scope Z_scope.

Set Implicit Arguments.

(** ** Python values *)

(** A timezone object: its key and its offset from UTC, in seconds, at a
    given UTC instant (nanoseconds since the Unix epoch). *)
Record tzinfo := mk_tz {
  tz_key : string;
  tz_utcoffset : Z -> Z
}.

Definition tz_UTC : tzinfo := mk_tz "UTC" (fun _ => 0).

Definition tz_fixed (name : string) (seconds : Z) : tzinfo :=
  mk_tz name (fun _ => seconds).

(** [pandas.Timestamp]: nanoseconds since 1970-01-01T00:00:00 and the [tz]
    attribute.  For a naive timestamp ([tz] is [None]) the count is the
    wall-clock reading; for an aware one it is the UTC instant. *)
Record Timestamp := mk_ts {
  ts_value : Z;
  ts_tz : option tzinfo
}.

(** Binary64 floats, as the standard library specifies them. *)
Definition pyfloat := spec_float.

(** The values that cross the runner: what [json.loads] yields for the
    arguments, and the cells [DataFrame.to_dict('records')] yields for the
    results ([Timestamp] and the missing-time marker [NaT] included). *)
Unset Elimination Schemes.
Inductive pyval : Type :=
| PNone
| PBool (b : bool)
| PInt (z : Z)
| PFloat (f : pyfloat)
| PStr (s : string)
| PTimestamp (t : Timestamp)
| PNaT
| PList (l : list pyval)
| PDict (d : list (string * pyval)).
Set Elimination Schemes.

Definition pydict := list (string * pyval).

(** Induction principle that reaches inside lists and dicts. *)
Section pyval_induction.
Variable P : pyval -> Prop.
Hypothesis HNone : P PNone.
Hypothesis HBool : forall b, P (PBool b).
Hypothesis HInt : forall z, P (PInt z).
Hypothesis HFloat : forall f, P (PFloat f).
Hypothesis HStr : forall s, P (PStr s).
Hypothesis HTs : forall t, P (PTimestamp t).
Hypothesis HNaT : P PNaT.
Hypothesis HList : forall l, Forall P l -> P (PList l).
Hypothesis HDict : forall d, Forall (fun kv => P (snd kv)) d -> P (PDict d).

Fixpoint pyval_deep_ind (v : pyval) : P v :=
  match v with
  | PNone => HNone
  | PBool b => HBool b
  | PInt z => HInt z
  | PFloat f => HFloat f
  | PStr s => HStr s
  | PTimestamp t => HTs t
  | PNaT => HNaT
  | PList l =>
      HList ((fix go (l : list pyval) : Forall P l :=
                match l with
                | [] => Forall_nil P
                | x :: r => Forall_cons x (pyval_deep_ind x) (go r)
                end) l)
  | PDict d =>
      HDict ((fix go (d : pydict) : Forall (fun kv => P (snd kv)) d :=
                match d with
                | [] => Forall_nil _
                | kv :: r => Forall_cons kv (pyval_deep_ind (snd kv)) (go r)
                end) d)
  end.
End pyval_induction.

(** [d.get(k)]: the first binding of the key. *)
Fixpoint dict_get (k : string) (d : pydict) : option pyval :=
  match d with
  | [] => None
  | (k', v) :: r => if String.eqb k k' then Some v else dict_get k r
  end.

Definition dict_has (k : string) (d : pydict) : bool :=
  match dict_get k d with Some _ => true | None => false end.

(** [d[k] = v] on a dict: overwrite in place, or append a new key. *)
Fixpoint dict_set (k : string) (v : pyval) (d : pydict) : pydict :=
  match d with
  | [] => [(k, v)]
  | (k', v') :: r =>
      if String.eqb k k' then (k, v) :: r else (k', v') :: dict_set k v r
  end.

(** ** Floats: the only facts the runner uses *)

(** [x != x] on a float. *)
Definition float_ne (x y : pyfloat) : bool := negb (SFeqb x y).

Definition float_is_zero (x : pyfloat) : bool :=
  match x with S754_zero _ => true | _ => false end.

(** Python truthiness ([bool(v)], as [if v:] and [not v] use it). *)
Definition py_truthy (v : pyval) : bool :=
  match v with
  | PNone => false
  | PBool b => b
  | PInt z => negb (z =? 0)
  | PFloat f => negb (float_is_zero f)
  | PStr s => negb (String.eqb s "")
  | PTimestamp _ => true
  | PNaT => true
  | PList l => match l with [] => false | _ => true end
  | PDict d => match d with [] => false | _ => true end
  end.

(** [obj != obj]: true for a float NaN and for [NaT], false for every other
    value of [pyval] (containers compare equal to themselves by identity). *)
Definition py_ne_self (v : pyval) : bool :=
  match v with
  | PFloat f => float_ne f f
  | PNaT => true
  | _ => false
  end.

(** [hasattr(obj, 'isoformat')]. *)
Definition has_isoformat (v : pyval) : bool :=
  match v with
  | PTimestamp _ => true
  | PNaT => true
  | _ => false
  end.

(** ** Strings *)

(** [str.lower()] on the ASCII range. *)
Definition lower_ascii (c : ascii) : ascii :=
  let n := nat_of_ascii c in
  if (Nat.leb 65 n && Nat.leb n 90)%bool then ascii_of_nat (n + 32) else c.

Fixpoint lower (s : string) : string :=
  match s with
  | EmptyString => EmptyString
  | String c r => String (lower_ascii c) (lower r)
  end.

(** [x in (a, b, ...)] for strings. *)
Definition str_in (x : string) (l : list string) : bool :=
  existsb (String.eqb x) l.

Definition digit_char (d : Z) : ascii := ascii_of_nat (48 + Z.to_nat d).

(** Decimal digits of a non-negative number, at least [width] of them
    (zero padded), as [%Y], [%m], [%d], [%H], [%M] and [%S] print them. *)
Fixpoint pad_digits (width : nat) (n : Z) (acc : string) : string :=
  match width with
  | O => acc
  | S w => pad_digits w (n / 10) (String (digit_char (n mod 10)) acc)
  end.

Definition pad (width : nat) (n : Z) : string := pad_digits width n "".

(** ** Calendar arithmetic behind [Timestamp.strftime]

    pandas keeps a timestamp as a count of nanoseconds and derives the
    calendar fields of the proleptic Gregorian calendar from it. *)

Definition ns_per_second : Z := 1000000000.
Definition seconds_per_day : Z := 86400.
Definition ns_per_day : Z := seconds_per_day * ns_per_second.

(** Days since 1970-01-01 of a calendar date. *)
Definition days_from_civil (y m d : Z) : Z :=
  let y' := if m <=? 2 then y - 1 else y in
  let era := y' / 400 in
  let yoe := y' - era * 400 in
  let mp := if 2 <? m then m - 3 else m + 9 in
  let doy := (153 * mp + 2) / 5 + d - 1 in
  let doe := yoe * 365 + yoe / 4 - yoe / 100 + doy in
  era * 146097 + doe - 719468.

(** Calendar date (year, month, day) of a day count since 1970-01-01. *)
Definition civil_from_days (days : Z) : Z * Z * Z :=
  let z := days + 719468 in
  let era := z / 146097 in
  let doe := z - era * 146097 in
  let yoe := (doe - doe / 1460 + doe / 36524 - doe / 146096) / 365 in
  let doy := doe - (365 * yoe + yoe / 4 - yoe / 100) in
  let mp := (5 * doy + 2) / 153 in
  let d := doy - (153 * mp + 2) / 5 + 1 in
  let m := if mp <? 10 then mp + 3 else mp - 9 in
  let y := yoe + era * 400 in
  (if m <=? 2 then y + 1 else y, m, d).

(** The wall-clock reading of a timestamp, in nanoseconds. *)
Definition ts_wall (t : Timestamp) : Z :=
  match ts_tz t with
  | None => ts_value t
  | Some tz => ts_value t + tz_utcoffset tz (ts_value t) * ns_per_second
  end.

(** [t.strftime('%Y-%m-%d %H:%M:%S')]: sub-second digits are dropped. *)
Definition strftime_ymd_hms (t : Timestamp) : string :=
  let secs := ts_wall t / ns_per_second in
  let '(y, m, d) := civil_from_days (secs / seconds_per_day) in
  let sod := secs mod seconds_per_day in
  pad 4 y ++ "-" ++ pad 2 m ++ "-" ++ pad 2 d ++ " " ++
  pad 2 (sod / 3600) ++ ":" ++ pad 2 (sod / 60 mod 60) ++ ":" ++ pad 2 (sod mod 60).

(** A timestamp from its wall-clock fields and its timezone, as
    [pd.Timestamp('2025-09-01T00:00:00+05:00')] builds it. *)
Definition timestamp_of_fields (y mo d h mi s : Z) (tz : option tzinfo) : Timestamp :=
  let wall := ((days_from_civil y mo d * seconds_per_day) + h * 3600 + mi * 60 + s)
              * ns_per_second in
  match tz with
  | None => mk_ts wall None
  | Some z => mk_ts (wall - tz_utcoffset z wall * ns_per_second) tz
  end.

(** ** Exceptions and results *)

Record exn := mk_exn {
  exn_type : string;
  exn_msg : string
}.

Inductive result (A : Type) : Type :=
| Ok (a : A)
| Raise (e : exn).
Arguments Ok {A} a.
Arguments Raise {A} e.

Definition TypeError (m : string) : exn := mk_exn "TypeError" m.
Definition ValueError (m : string) : exn := mk_exn "ValueError" m.
Definition KeyError (m : string) : exn := mk_exn "KeyError" m.
Definition AttributeError (m : string) : exn := mk_exn "AttributeError" m.
Definition OverflowError (m : string) : exn := mk_exn "OverflowError" m.
Definition UnboundLocalError (m : string) : exn := mk_exn "UnboundLocalError" m.

(** [except T:] matches on the exception class. *)
Definition is_instance (e : exn) (cls : string) : bool :=
  String.eqb (exn_type e) cls.

(** [traceback.format_exc()]; the frame lines are not modelled. *)
Definition format_exc (e : exn) : string :=
  "Traceback (most recent call last): " ++ exn_type e ++ ": " ++ exn_msg e.

Definition result_bind {A B} (r : result A) (f : A -> result B) : result B :=
  match r with
  | Ok a => f a
  | Raise e => Raise e
  end.

(** *** Timezone methods of [Timestamp] *)

(** [t.tz_localize('UTC')]: only a naive timestamp can be localized. *)
Definition tz_localize_UTC (t : Timestamp) : result Timestamp :=
  match ts_tz t with
  | None => Ok (mk_ts (ts_value t) (Some tz_UTC))
  | Some _ =>
      Raise (TypeError "Cannot localize tz-aware Timestamp, use tz_convert for conversions")
  end.

(** The same instant, shown in another zone. *)
Definition with_zone (zone : tzinfo) (t : Timestamp) : Timestamp :=
  mk_ts (ts_value t) (Some zone).

(** [t.tz_convert(zone)]: the instant is kept, the zone replaced; a naive
    timestamp cannot be converted. *)
Definition tz_convert (zone : tzinfo) (t : Timestamp) : result Timestamp :=
  match ts_tz t with
  | None =>
      Raise (TypeError "Cannot convert tz-naive Timestamp, use tz_localize to localize")
  | Some _ => Ok (with_zone zone t)
  end.

(** *** Spreadsheet day serials *)

Definition int64_min : Z := - 2 ^ 63.
Definition int64_max : Z := 2 ^ 63 - 1.

(** [pd.Timestamp('1899-12-30')], naive. *)
Definition excel_epoch : Timestamp :=
  timestamp_of_fields 1899 12 30 0 0 0 None.

(** [pd.Timedelta(days=x)] in nanoseconds: the float's exact value times
    the length of a day, truncated toward zero; NaN, the infinities and
    values outside the 64-bit range raise. *)
Definition timedelta_days (x : pyfloat) : result Z :=
  match x with
  | S754_nan => Raise (ValueError "cannot convert float NaN to integer")
  | S754_infinity _ => Raise (OverflowError "cannot convert float infinity to integer")
  | S754_zero _ => Ok 0
  | S754_finite s m e =>
      let mag := if 0 <=? e then Z.pos m * 2 ^ e * ns_per_day
                 else (Z.pos m * ns_per_day) / 2 ^ (- e) in
      let ns := if s then - mag else mag in
      if (int64_min <? ns) && (ns <=? int64_max)
      then Ok ns
      else Raise (OverflowError "Python int too large to convert to C long")
  end.

(** [ts + delta]: out-of-range sums raise [OutOfBoundsDatetime]. *)
Definition timestamp_add (t : Timestamp) (delta_ns : Z) : result Timestamp :=
  let v := ts_value t + delta_ns in
  if (int64_min <? v) && (v <=? int64_max)
  then Ok (mk_ts v (ts_tz t))
  else Raise (mk_exn "OutOfBoundsDatetime" "Out of bounds nanosecond timestamp").

(** [pd.Timestamp('1899-12-30') + pd.Timedelta(days=excel_serial)]. *)
Definition excel_serial_to_timestamp (excel_serial : pyfloat) : result Timestamp :=
  result_bind (timedelta_days excel_serial) (timestamp_add excel_epoch).

(** ** The control-flow monad

    A Python statement either completes, leaves the enclosing function
    through [return], or raises.  [M S R A] is a statement over a store
    [S], inside a function that returns values of type [R], that yields
    an [A] when it completes. *)

Inductive outcome (R A : Type) : Type :=
| Normal (a : A)
| Returned (r : R)
| Raised (e : exn).
Arguments Normal {R A} a.
Arguments Returned {R A} r.
Arguments Raised {R A} e.

Definition M (S R A : Type) : Type := S -> outcome R A * S.

Definition ret {S R A} (a : A) : M S R A := fun s => (Normal a, s).

Definition bind {S R A B} (m : M S R A) (f : A -> M S R B) : M S R B :=
  fun s =>
    match m s with
    | (Normal a, s') => f a s'
    | (Returned r, s') => (Returned r, s')
    | (Raised e, s') => (Raised e, s')
    end.

(** [return r]. *)
Definition return_ {S R A} (r : R) : M S R A := fun s => (Returned r, s).

(** [raise e]. *)
Definition raise {S R A} (e : exn) : M S R A := fun s => (Raised e, s).

(** [try: body / except Exception as e: handler e].  A [return] inside the
    body is not intercepted; an exception of the handler propagates. *)
Definition try_except {S R A} (body : M S R A) (handler : exn -> M S R A) : M S R A :=
  fun s =>
    match body s with
    | (Raised e, s') => handler e s'
    | other => other
    end.

Definition gets {S R A} (f : S -> A) : M S R A := fun s => (Normal (f s), s).

Definition modify {S R} (f : S -> S) : M S R unit := fun s => (Normal tt, f s).

(** The result of an external call, as a statement. *)
Definition lift {S R A} (r : result A) : M S R A :=
  fun s =>
    match r with
    | Ok a => (Normal a, s)
    | Raise e => (Raised e, s)
    end.

(** A statement that does not touch the store, run inside a larger one. *)
Definition embed {S R A} (m : M unit R A) : M S R A :=
  fun s => (fst (m tt), s).

(** Calling a function whose body is [body]: a [return r] yields [Some r],
    falling off the end yields Python's [None], an exception propagates. *)
Definition call {S R A} (body : M S R A) : S -> result (option R) * S :=
  fun s =>
    match body s with
    | (Normal _, s') => (Ok None, s')
    | (Returned r, s') => (Ok (Some r), s')
    | (Raised e, s') => (Raise e, s')
    end.

(** The same call, as a statement of the calling function. *)
Definition invoke {S R R' A} (body : M S R A) : M S R' (option R) :=
  fun s =>
    match call body s with
    | (Ok r, s') => (Normal r, s')
    | (Raise e, s') => (Raised e, s')
    end.

Declare Scope py_scope.
Delimit Scope py_scope with py.
Notation "x <- m ;; k" := (bind m (fun x => k))
  (at level 61, m at next level, right associativity) : py_scope.
Notation "' p <- m ;; k" := (bind m (fun x => let 'p := x in k))
  (at level 61, p pattern, m at next level, right associativity) : py_scope.
Notation "m ;; k" := (bind m (fun _ => k))
  (at level 61, right associativity) : py_scope.
Open Scope py_scope.

(** [for x in xs: acc = body(acc, x)]. *)
Fixpoint for_each {S R X Acc} (xs : list X) (acc : Acc)
    (body : Acc -> X -> M S R Acc) : M S R Acc :=
  match xs with
  | [] => ret acc
  | x :: rest => acc' <- body acc x ;; for_each rest acc' body
  end.

(** ** The external world and the process state *)

(** What the parsers hand back: a [pandas.Timestamp], or the standard
    library's [datetime.datetime] that [dateutil] builds, which has neither
    a [tz] attribute nor [tz_localize]. *)
Inductive dtobj : Type :=
| PdTimestamp (t : Timestamp)
| PyDatetime (t : Timestamp).

(** The frame [spy.pull] returns, through the three views the runner takes
    of it: [list(df.columns)], [df.index] and
    [df.reset_index().to_dict('records')]. *)
Record PulledFrame := mk_pulled {
  pf_columns : list string;
  pf_index : list pyval;
  pf_records : list pydict
}.

Record World := mk_world {
  (** [spy.options.compatibility = 66] *)
  spy_set_compatibility : result unit;
  (** the guarded [spy.options.server = url] *)
  spy_set_server : pyval -> result unit;
  (** [spy.login(url, access_key, password, ignore_ssl_errors)]: the value
      of [spy.user] afterwards, or the exception *)
  spy_login : pyval -> pyval -> pyval -> bool -> result (option string);
  (** [spy.search({'Name': name, 'Type': 'StoredSignal'}, quiet=True)]:
      the records of the frame *)
  spy_search : string -> result (list pydict);
  (** [spy.pull(sensors, start=, end=, grid=, header='Name', quiet=True)] *)
  spy_pull : list pydict -> dtobj -> dtobj -> pyval -> result PulledFrame;
  (** [pd.to_datetime(x)] *)
  pd_to_datetime : pyval -> result Timestamp;
  (** [pd.to_datetime(x, format=fmt)] *)
  pd_to_datetime_format : pyval -> string -> result Timestamp;
  (** [float(x)] *)
  py_float : pyval -> result pyfloat;
  (** [dateutil.parser.parse(x)] *)
  dateutil_parse : pyval -> result Timestamp;
  (** the timezone object [tz_convert] resolves a zone argument to *)
  resolve_timezone : pyval -> result tzinfo;
  (** [str(x)] for the values whose text form is not modelled *)
  py_repr : pyval -> string
}.

Inductive remote_call : Type :=
| CallLogin (url access_key password : pyval) (ignore_ssl_errors : bool)
| CallSearch (name : string)
| CallPull (sensors : list pydict) (start end_ : dtobj) (grid : pyval).

(** The module-level [auth_state] dict. *)
Record AuthState := mk_auth {
  is_authenticated : bool;
  auth_url : pyval;
  auth_access_key : pyval;
  auth_password : pyval;
  auth_provider_ : pyval;
  auth_ignore_ssl_errors : bool
}.

Definition auth_state_initial : AuthState :=
  mk_auth false PNone PNone PNone (PStr "Seeq") false.

Record state := mk_state {
  (** [spy.user] *)
  spy_user : option string;
  (** [auth_state] *)
  auth_state : AuthState;
  (** the remote calls issued so far, oldest first *)
  calls : list remote_call;
  (** whether the local name [traceback] of the running
      [search_and_pull_sensors] frame is bound *)
  local_traceback : bool
}.

Definition initial_state : state :=
  mk_state None auth_state_initial [] false.

Definition log_call (c : remote_call) : state -> state :=
  fun s => mk_state (spy_user s) (auth_state s) (calls s ++ [c])%list (local_traceback s).

Definition set_spy_user (u : option string) : state -> state :=
  fun s => mk_state u (auth_state s) (calls s) (local_traceback s).

Definition set_auth_state (a : AuthState) : state -> state :=
  fun s => mk_state (spy_user s) a (calls s) (local_traceback s).

Definition set_local_traceback (b : bool) : state -> state :=
  fun s => mk_state (spy_user s) (auth_state s) (calls s) b.

(** [str(n)] for an integer. *)
Definition str_of_Z (z : Z) : string :=
  DecimalString.NilZero.string_of_int (Z.to_int z).

(** ** The operations of [seeq_runner.py] *)

Section Runner.

Variable w : World.

(** [str(x)] as f-strings apply it. *)
Definition py_str (v : pyval) : string :=
  match v with
  | PStr s => s
  | PNone => "None"
  | PBool true => "True"
  | PBool false => "False"
  | PInt z => str_of_Z z
  | other => py_repr w other
  end.

(** Lines 62-66: "Convert ignore_ssl_errors to proper boolean". *)
Definition coerce_ignore_ssl_errors (ignore_ssl_errors : pyval) : bool :=
  match ignore_ssl_errors with
  | PStr s => str_in (lower s) ["true"; "1"; "yes"; "on"]
  | PBool b => b
  | _ => false
  end.

(** [spy.login(...)] under [redirect_stdout]. *)
Definition login {R} (url access_key password : pyval) (ignore_ssl_errors : bool)
    : M state R unit :=
  modify (log_call (CallLogin url access_key password ignore_ssl_errors)) ;;
  user <- lift (spy_login w url access_key password ignore_ssl_errors) ;;
  modify (set_spy_user user).

Definition authenticate_seeq
    (url access_key password auth_provider ignore_ssl_errors : pyval)
    : M state pydict unit :=
  try_except
    (try_except (lift (spy_set_compatibility w))
       (fun e => if is_instance e "AttributeError" then ret tt else raise e) ;;
     try_except (lift (spy_set_server w url)) (fun _ => ret tt) ;;
     let ignore_ssl_errors := coerce_ignore_ssl_errors ignore_ssl_errors in
     login url access_key password ignore_ssl_errors ;;
     user <- gets spy_user ;;
     match user with
     | Some u =>
         modify (set_auth_state
                   (mk_auth true url access_key password auth_provider
                      ignore_ssl_errors)) ;;
         return_ [("success", PBool true);
                  ("message", PStr ("Successfully authenticated as " ++ u));
                  ("user", PStr u);
                  ("server_url", url)]
     | None =>
         return_ [("success", PBool false);
                  ("message", PStr "Authentication failed - no user returned");
                  ("error", PStr "No user returned from SPy")]
     end)
    (fun e =>
       let error_msg := exn_msg e in
       let error_trace := format_exc e in
       return_ [("success", PBool false);
                ("message", PStr ("Authentication failed: " ++ error_msg));
                ("error", PStr error_msg);
                ("traceback", PStr error_trace)]).

Definition check_auth_status : M state pydict unit :=
  try_except
    (user <- gets spy_user ;;
     authenticated <- gets (fun s => is_authenticated (auth_state s)) ;;
     match user with
     | Some u =>
         if authenticated
         then return_ [("success", PBool true);
                       ("isAuthenticated", PBool true);
                       ("user", PStr u);
                       ("message", PStr ("Authenticated as " ++ u))]
         else return_ [("success", PBool true);
                       ("isAuthenticated", PBool false);
                       ("message", PStr "Not authenticated")]
     | None =>
         return_ [("success", PBool true);
                  ("isAuthenticated", PBool false);
                  ("message", PStr "Not authenticated")]
     end)
    (fun e =>
       return_ [("success", PBool false);
                ("isAuthenticated", PBool false);
                ("error", PStr (exn_msg e));
                ("message", PStr "Error checking authentication status")]).

(** [d[k]] on the result of a call. *)
Definition subscript {S R} (d : option pydict) (k : string) : M S R pyval :=
  match d with
  | None => raise (TypeError "'NoneType' object is not subscriptable")
  | Some d =>
      match dict_get k d with
      | Some v => ret v
      | None => raise (KeyError k)
      end
  end.

(** [d.get(k, default)] on the result of a call. *)
Definition get_or {S R} (d : option pydict) (k : string) (default : pyval)
    : M S R pyval :=
  match d with
  | None => raise (AttributeError "'NoneType' object has no attribute 'get'")
  | Some d =>
      match dict_get k d with
      | Some v => ret v
      | None => ret default
      end
  end.

Definition envelope_of (r : option pydict) : pyval :=
  match r with
  | Some d => PDict d
  | None => PNone
  end.

(** Lines 147-170 and 246-271: "Always authenticate when called from
    Node.js (new process each time)". *)
Definition authenticate_block
    (url access_key password auth_provider ignore_ssl_errors : pyval)
    : M state pydict unit :=
  if py_truthy url && py_truthy access_key && py_truthy password then
    auth_result <- invoke (authenticate_seeq url access_key password
                             auth_provider ignore_ssl_errors) ;;
    success <- subscript auth_result "success" ;;
    (if negb (py_truthy success) then
       error <- get_or auth_result "error" (PStr "Unknown error") ;;
       return_ [("success", PBool false);
                ("message", PStr ("Authentication failed: " ++ py_str error));
                ("error", PStr "Authentication required");
                ("auth_details", envelope_of auth_result)]
     else ret tt) ;;
    user <- gets spy_user ;;
    match user with
    | None =>
        return_ [("success", PBool false);
                 ("message",
                  PStr "Authentication appeared successful but spy.user is still None");
                 ("error", PStr "Authentication state issue")]
    | Some _ => ret tt
    end
  else
    return_ [("success", PBool false);
             ("message", PStr "Authentication credentials are required");
             ("error", PStr "Missing credentials")].

(** The one-row frame built for a name that was not found, or whose search
    raised. *)
Definition placeholder (sensor_name status : string) : list pydict :=
  [[("Name", PStr sensor_name);
    ("ID", PNone);
    ("Type", PStr "StoredSignal");
    ("Original_Name", PStr sensor_name);
    ("Status", PStr status)]].

(** [result.empty] *)
Definition frame_empty (frame : list pydict) : bool :=
  match frame with [] => true | _ => false end.

(** [result['Original_Name'] = sensor_name] *)
Definition set_column (column : string) (v : pyval) (frame : list pydict)
    : list pydict :=
  map (dict_set column v) frame.

(** One turn of the search loop: the frame appended to [search_results]. *)
Definition search_one {R} (search_results : list (list pydict)) (sensor_name : string)
    : M state R (list (list pydict)) :=
  try_except
    (modify (log_call (CallSearch sensor_name)) ;;
     result <- lift (spy_search w sensor_name) ;;
     if negb (frame_empty result)
     then ret (search_results ++ [set_column "Original_Name" (PStr sensor_name) result])%list
     else ret (search_results ++ [placeholder sensor_name "Not Found"])%list)
    (fun e =>
       ret (search_results
              ++ [placeholder sensor_name ("Search Error: " ++ exn_msg e)])%list).

(** [for sensor_name in sensor_names]: [None] is not iterable. *)
Definition iterate {S R} (sensor_names : option (list string)) : M S R (list string) :=
  match sensor_names with
  | Some names => ret names
  | None => raise (TypeError "'NoneType' object is not iterable")
  end.

(** [len(sensor_names)] *)
Definition py_len {S R} (sensor_names : option (list string)) : M S R Z :=
  match sensor_names with
  | Some names => ret (Z.of_nat (List.length names))
  | None => raise (TypeError "object of type 'NoneType' has no len()")
  end.

Definition search_loop {R} (sensor_names : option (list string))
    : M state R (list (list pydict)) :=
  names <- iterate sensor_names ;;
  for_each names [] search_one.

(** *** Frames *)

(** The first occurrence of every string of a list, in order. *)
Fixpoint unique_first (seen : list string) (xs : list string) : list string :=
  match xs with
  | [] => []
  | x :: rest =>
      if str_in x seen then unique_first seen rest
      else x :: unique_first (x :: seen) rest
  end.

(** The columns of a list of records: the union of their keys. *)
Definition frame_columns (rows : list pydict) : list string :=
  unique_first [] (List.concat (map (map fst) rows)).

Definition NaN : pyval := PFloat S754_nan.

(** A record laid out on given columns; a missing cell is NaN. *)
Definition reindex (columns : list string) (row : pydict) : pydict :=
  map (fun c => (c, match dict_get c row with Some v => v | None => NaN end))
      columns.

(** [pd.concat(frames, ignore_index=True)]: the rows of all frames, on the
    union of their columns. *)
Definition pd_concat (frames : list (list pydict)) : list pydict :=
  let rows := List.concat frames in
  map (reindex (frame_columns rows)) rows.

(** [Series.notna()] on one cell. *)
Definition notna (cell : option pyval) : bool :=
  match cell with
  | None => false
  | Some PNone => false
  | Some v => negb (py_ne_self v)
  end.

(** [frame[frame[column].notna()]]; a frame without the column raises. *)
Definition filter_notna (column : string) (frame : list pydict)
    : result (list pydict) :=
  if str_in column (frame_columns frame)
  then Ok (filter (fun row => notna (dict_get column row)) frame)
  else Raise (KeyError column).

(** Equality of two cells of a column of names.  The column holds the
    requested names, which are strings. *)
Definition same_name (a b : option pyval) : bool :=
  match a, b with
  | Some (PStr x), Some (PStr y) => String.eqb x y
  | _, _ => false
  end.

(** [frame.drop_duplicates(subset=[column], keep='first')] *)
Fixpoint drop_duplicates_from (column : string) (seen : list (option pyval))
    (frame : list pydict) : list pydict :=
  match frame with
  | [] => []
  | row :: rest =>
      let key := dict_get column row in
      if existsb (same_name key) seen
      then drop_duplicates_from column seen rest
      else row :: drop_duplicates_from column (key :: seen) rest
  end.

Definition drop_duplicates (column : string) (frame : list pydict) : list pydict :=
  drop_duplicates_from column [] frame.

(** [if xs:] on a list. *)
Definition nonempty {X} (xs : list X) : bool :=
  match xs with [] => false | _ => true end.

(** [frame.to_dict('records')] as a Python value. *)
Definition to_records (frame : list pydict) : pyval :=
  PList (map PDict frame).

Definition search_sensors_only (sensor_names : option (list string))
    (url access_key password auth_provider ignore_ssl_errors : pyval)
    : M state pydict unit :=
  try_except
    (authenticate_block url access_key password auth_provider ignore_ssl_errors ;;
     search_results <- search_loop sensor_names ;;
     if nonempty search_results then
       let combined_results := pd_concat search_results in
       n <- py_len sensor_names ;;
       return_ [("success", PBool true);
                ("message", PStr ("Search completed for " ++ str_of_Z n ++ " sensors"));
                ("search_results", to_records combined_results);
                ("sensor_count", PInt n)]
     else
       return_ [("success", PBool false);
                ("message", PStr "Search failed for all sensors");
                ("error", PStr "No search results")])
    (fun e =>
       let error_msg := exn_msg e in
       let error_trace := format_exc e in
       return_ [("success", PBool false);
                ("message", PStr ("Search operation failed: " ++ error_msg));
                ("error", PStr error_msg);
                ("traceback", PStr error_trace)]).

(** *** The date/time normaliser (lines 275-340) *)

Definition excel_formats : list string :=
  ["%m/%d/%Y";
   "%m/%d/%Y %H:%M:%S";
   "%m/%d/%Y %I:%M:%S %p";
   "%Y-%m-%d";
   "%Y-%m-%d %H:%M:%S";
   "%m-%d-%Y";
   "%m-%d-%Y %H:%M:%S";
   "%d/%m/%Y";
   "%d/%m/%Y %H:%M:%S"].

(** [for fmt in excel_formats: try: return pd.to_datetime(dt_str, format=fmt)
    except Exception: continue] *)
Fixpoint try_formats (dt_str : pyval) (formats : list string)
    : M unit (option dtobj) unit :=
  match formats with
  | [] => ret tt
  | fmt :: rest =>
      try_except
        (result <- lift (pd_to_datetime_format w dt_str fmt) ;;
         return_ (Some (PdTimestamp result)))
        (fun _ => ret tt) ;;
      try_formats dt_str rest
  end.

Definition parse_excel_friendly_datetime (dt_str : pyval)
    : M unit (option dtobj) unit :=
  if negb (py_truthy dt_str) then return_ None
  else
    try_except
      (result <- lift (pd_to_datetime w dt_str) ;;
       return_ (Some (PdTimestamp result)))
      (fun _ => ret tt) ;;
    try_except
      (try_formats dt_str excel_formats ;;
       try_except
         (excel_serial <- lift (py_float w dt_str) ;;
          result <- lift (excel_serial_to_timestamp excel_serial) ;;
          return_ (Some (PdTimestamp result)))
         (fun _ => ret tt) ;;
       try_except
         (result <- lift (dateutil_parse w dt_str) ;;
          return_ (Some (PyDatetime result)))
         (fun _ => ret tt))
      (fun e =>
         raise (ValueError ("Could not parse datetime '" ++ py_str dt_str
                            ++ "': " ++ exn_msg e))).

(** The value of a call [parse_excel_friendly_datetime(x)]: an explicit
    [return None] and falling off the end both give [None]. *)
Definition parsed (dt_str : pyval) : result (option dtobj) :=
  match fst (call (parse_excel_friendly_datetime dt_str) tt) with
  | Ok (Some r) => Ok r
  | Ok None => Ok None
  | Raise e => Raise e
  end.

(** *** Timezone resolution (lines 362-373) *)

(** [dt.tz] *)
Definition dt_tz (dt : dtobj) : result (option tzinfo) :=
  match dt with
  | PdTimestamp t => Ok (ts_tz t)
  | PyDatetime _ =>
      Raise (AttributeError "'datetime.datetime' object has no attribute 'tz'")
  end.

(** [dt.tz_localize('UTC')] *)
Definition dt_tz_localize_UTC (dt : dtobj) : result dtobj :=
  match dt with
  | PdTimestamp t => result_bind (tz_localize_UTC t) (fun t' => Ok (PdTimestamp t'))
  | PyDatetime _ =>
      Raise (AttributeError "'datetime.datetime' object has no attribute 'tz_localize'")
  end.

(** [dt.tz_convert(timezone)] *)
Definition dt_tz_convert (timezone : pyval) (dt : dtobj) : result dtobj :=
  match dt with
  | PdTimestamp t =>
      result_bind (resolve_timezone w timezone)
        (fun zone => result_bind (tz_convert zone t) (fun t' => Ok (PdTimestamp t')))
  | PyDatetime _ =>
      Raise (AttributeError "'datetime.datetime' object has no attribute 'tz_convert'")
  end.

Definition missing_datetime_envelope : pydict :=
  [("success", PBool false);
   ("message", PStr "Start and end datetime are required");
   ("error", PStr "Missing datetime values")].

Definition supported_formats : pyval :=
  PList [PStr "Excel dates: 9/1/2025, 9/1/2025 12:00:00 PM";
         PStr "ISO format: 2025-09-01T00:00:00Z";
         PStr "Standard formats: 09/01/2025, 2025-09-01";
         PStr "Excel serial numbers: 45292.5"].

Definition invalid_datetime_envelope (e : exn) : pydict :=
  [("success", PBool false);
   ("message", PStr ("Invalid datetime format: " ++ exn_msg e));
   ("error", PStr "Datetime parsing failed");
   ("supported_formats", supported_formats)].

(** The body of the [try] of lines 342-376: both bounds parsed, then the
    timezone applied.  It yields the final [start_dt] and [end_dt]. *)
Definition resolve_datetimes (start_datetime end_datetime timezone : pyval)
    : M unit pydict (dtobj * dtobj) :=
  start_dt <- lift (parsed start_datetime) ;;
  end_dt <- lift (parsed end_datetime) ;;
  match start_dt, end_dt with
  | Some start_dt, Some end_dt =>
      if py_truthy timezone then
        start_utc <- lift (dt_tz_localize_UTC start_dt) ;;
        start_dt <- lift (dt_tz_convert timezone start_utc) ;;
        end_utc <- lift (dt_tz_localize_UTC end_dt) ;;
        end_dt <- lift (dt_tz_convert timezone end_utc) ;;
        ret (start_dt, end_dt)
      else
        tz <- lift (dt_tz start_dt) ;;
        match tz with
        | None =>
            start_dt <- lift (dt_tz_localize_UTC start_dt) ;;
            end_dt <- lift (dt_tz_localize_UTC end_dt) ;;
            ret (start_dt, end_dt)
        | Some _ => ret (start_dt, end_dt)
        end
  | _, _ => return_ missing_datetime_envelope
  end.

(** [import traceback] inside [search_and_pull_sensors] binds the
    function's local name [traceback]. *)
Definition import_traceback {R} : M state R unit :=
  modify (set_local_traceback true).

(** Lines 342-393, with the handler of the [try]. *)
Definition datetime_block (start_datetime end_datetime timezone : pyval)
    : M state pydict (dtobj * dtobj) :=
  try_except
    (embed (resolve_datetimes start_datetime end_datetime timezone))
    (fun e =>
       import_traceback ;;
       return_ (invalid_datetime_envelope e)).

(** *** The JSON sanitiser (lines 507-527) *)

(** Lines 515-525, for a value that has [isoformat]: an aware timestamp is
    converted to UTC, then formatted; a naive one is formatted directly.
    [obj.tz_convert('UTC')] cannot raise on an aware timestamp.  [NaT] never
    gets here: the NaN test above it takes it. *)
Definition format_timestamp (obj : pyval) : pyval :=
  match obj with
  | PTimestamp t =>
      match ts_tz t with
      | Some _ =>
          let utc_obj := with_zone tz_UTC t in
          PStr (strftime_ymd_hms utc_obj)
      | None => PStr (strftime_ymd_hms t)
      end
  | other => other
  end.

Fixpoint clean_for_json (obj : pyval) : pyval :=
  match obj with
  | PDict d => PDict (map (fun kv => (fst kv, clean_for_json (snd kv))) d)
  | PList l => PList (map clean_for_json l)
  | other =>
      if py_ne_self other then PNone
      else if has_isoformat other then format_timestamp other
      else other
  end.

(** *** [search_and_pull_sensors] *)

(** The handler of the outermost [try] (lines 566-575).  The two
    [import traceback] statements of the function make [traceback] one of
    its local names, so reading it here is reading a local. *)
Definition outer_handler {A} (e : exn) : M state pydict A :=
  let error_msg := exn_msg e in
  bound <- gets local_traceback ;;
  if bound then
    let error_trace := format_exc e in
    return_ [("success", PBool false);
             ("message", PStr ("Search and pull operation failed: " ++ error_msg));
             ("error", PStr error_msg);
             ("traceback", PStr error_trace)]
  else
    raise (UnboundLocalError
             "cannot access local variable 'traceback' where it is not associated with a value").

(** Lines 477-564: the pull, the sanitising and the final envelope. *)
Definition pull_block (combined_results valid_sensors : list pydict)
    (start_dt end_dt : dtobj) (start_datetime end_datetime grid : pyval)
    : M state pydict unit :=
  try_except
    (modify (log_call (CallPull valid_sensors start_dt end_dt grid)) ;;
     data_df <- lift (spy_pull w valid_sensors start_dt end_dt grid) ;;
     let data_records := to_records (pf_records data_df) in
     let cleaned_data := clean_for_json data_records in
     let cleaned_search_results := clean_for_json (to_records combined_results) in
     return_ [("success", PBool true);
              ("message",
               PStr ("Successfully retrieved data for "
                     ++ str_of_Z (Z.of_nat (List.length valid_sensors)) ++ " sensors"));
              ("search_results", cleaned_search_results);
              ("data", cleaned_data);
              ("data_columns", PList (map PStr (pf_columns data_df)));
              ("data_index", PList (map (fun idx => PStr (py_str idx)) (pf_index data_df)));
              ("sensor_count", PInt (Z.of_nat (List.length valid_sensors)));
              ("time_range",
               PStr (py_str start_datetime ++ " to " ++ py_str end_datetime))])
    (fun e =>
       import_traceback ;;
       return_ [("success", PBool false);
                ("message", PStr ("Failed to pull data: " ++ exn_msg e));
                ("error", PStr (exn_msg e));
                ("search_results", to_records combined_results)]).

(** Lines 395-564: the searches, the filter on found sensors, the
    deduplication and the pull. *)
Definition search_and_pull_block (sensor_names : option (list string))
    (start_dt end_dt : dtobj) (start_datetime end_datetime grid url : pyval)
    : M state pydict unit :=
  (if py_truthy url
   then try_except (lift (spy_set_server w url)) (fun _ => ret tt)
   else ret tt) ;;
  search_results <- search_loop sensor_names ;;
  (if nonempty search_results then ret tt
   else return_ [("success", PBool false);
                 ("message", PStr "No sensors found or search failed");
                 ("error", PStr "Search returned no results")]) ;;
  let combined_results := pd_concat search_results in
  valid_sensors <- lift (filter_notna "ID" combined_results) ;;
  (if frame_empty valid_sensors
   then return_ [("success", PBool false);
                 ("message", PStr "No valid sensors found to pull data from");
                 ("error", PStr "All sensors failed search");
                 ("search_results", to_records combined_results)]
   else ret tt) ;;
  let valid_sensors := drop_duplicates "Original_Name" valid_sensors in
  pull_block combined_results valid_sensors start_dt end_dt
    start_datetime end_datetime grid.

Definition search_and_pull_sensors (sensor_names : option (list string))
    (start_datetime end_datetime grid timezone : pyval)
    (url access_key password auth_provider ignore_ssl_errors : pyval)
    : M state pydict unit :=
  modify (set_local_traceback false) ;;
  try_except
    (authenticate_block url access_key password auth_provider ignore_ssl_errors ;;
     '(start_dt, end_dt) <- datetime_block start_datetime end_datetime timezone ;;
     search_and_pull_block sensor_names start_dt end_dt
       start_datetime end_datetime grid url)
    outer_handler.

Definition test_connection (url : pyval) : M state pydict unit :=
  try_except
    (return_ [("success", PBool true);
              ("message", PStr "SPy module is available and ready for authentication");
              ("status_code", PStr "OK")])
    (fun e =>
       return_ [("success", PBool false);
                ("message", PStr ("Connection test failed: " ++ exn_msg e));
                ("error", PStr (exn_msg e))]).

Definition get_server_info (url : pyval) : M state pydict unit :=
  try_except
    (return_ [("success", PBool true);
              ("message", PStr "Server info retrieved successfully");
              ("server_info", PDict [("status", PStr "Available"); ("url", url)])])
    (fun e =>
       return_ [("success", PBool false);
                ("message", PStr ("Failed to get server info: " ++ exn_msg e));
                ("error", PStr (exn_msg e))]).

End Runner.

(** ** Vocabulary of the properties *)

Definition is_nan (f : pyfloat) : bool :=
  match f with S754_nan => true | _ => false end.

(** A float NaN occurs somewhere in the value. *)
Fixpoint has_nan (v : pyval) : bool :=
  match v with
  | PFloat f => is_nan f
  | PList l => existsb has_nan l
  | PDict d => existsb (fun kv => has_nan (snd kv)) d
  | _ => false
  end.

(** A position inside a nested value: list indices and dict keys. *)
Inductive selector : Type :=
| Index (n : nat)
| Key (k : string).

Fixpoint select (path : list selector) (v : pyval) : option pyval :=
  match path with
  | [] => Some v
  | Index n :: rest =>
      match v with
      | PList l =>
          match nth_error l n with
          | Some x => select rest x
          | None => None
          end
      | _ => None
      end
  | Key k :: rest =>
      match v with
      | PDict d =>
          match dict_get k d with
          | Some x => select rest x
          | None => None
          end
      | _ => None
      end
  end.

(** The envelope invariant: a boolean [success], and [error] or
    [traceback] only next to [success: False]. *)
Definition envelope_ok (env : pydict) : Prop :=
  (exists b, dict_get "success" env = Some (PBool b)) /\
  (dict_has "error" env || dict_has "traceback" env = true ->
   dict_get "success" env = Some (PBool false)).

Definition is_login (c : remote_call) : bool :=
  match c with CallLogin _ _ _ _ => true | _ => false end.

(** The first explicit layout that parses, if any. *)
Fixpoint first_format (w : World) (dt_str : pyval) (formats : list string)
    : option Timestamp :=
  match formats with
  | [] => None
  | fmt :: rest =>
      match pd_to_datetime_format w dt_str fmt with
      | Ok t => Some t
      | Raise _ => first_format w dt_str rest
      end
  end.


(** The frame one name contributes to [search_results]. *)
Definition search_frame (w : World) (sensor_name : string) : list pydict :=
  match spy_search w sensor_name with
  | Ok result =>
      if frame_empty result then placeholder sensor_name "Not Found"
      else set_column "Original_Name" (PStr sensor_name) result
  | Raise e => placeholder sensor_name ("Search Error: " ++ exn_msg e)
  end.

(** [combined_results] for a list of requested names. *)
Definition combined_results_of (w : World) (names : list string) : list pydict :=
  pd_concat (map (search_frame w) names).

(** The cell of the [Original_Name] column. *)
Definition original_name (row : pydict) : option pyval :=
  dict_get "Original_Name" row.



(** The store after some more remote calls. *)
Definition log_calls (cs : list remote_call) (s : state) : state :=
  mk_state (spy_user s) (auth_state s) (calls s ++ cs)%list (local_traceback s).

(** Between two stores only login calls were issued, and the local names
    of the running frame were not rebound. *)
Definition only_logins (s s' : state) : Prop :=
  (exists l, calls s' = (calls s ++ l)%list /\ forallb is_login l = true) /\
  local_traceback s' = local_traceback s.


(** ** A sample deployment

    One server that accepts the login, knows the signal [TEMP.1] twice and
    fails on [BROKEN]; pandas parses the ISO dates used below and nothing
    else. *)

Definition binary64 (m : positive) (e : Z) : pyfloat := S754_finite false m e.

(** 45292.0 and 45292.5 as binary64 values. *)
Definition serial_45292 : pyfloat := binary64 (45292 * 2 ^ 37) (-37).
Definition serial_45292_5 : pyfloat := binary64 (90585 * 2 ^ 36) (-37).

Definition plus_five : tzinfo := tz_fixed "UTC+05:00" 18000.

Definition sample_to_datetime (x : pyval) : result Timestamp :=
  match x with
  | PStr s =>
      if String.eqb s "2025-09-01" then Ok (timestamp_of_fields 2025 9 1 0 0 0 None)
      else if String.eqb s "2025-09-02" then Ok (timestamp_of_fields 2025 9 2 0 0 0 None)
      else if String.eqb s "2025-09-01T00:00:00+05:00"
      then Ok (timestamp_of_fields 2025 9 1 0 0 0 (Some plus_five))
      else Raise (mk_exn "DateParseError" ("Unknown datetime string format: " ++ s))
  | _ => Raise (TypeError "unsupported argument")
  end.

Definition sample_search (name : string) : result (list pydict) :=
  if String.eqb name "TEMP.1" then
    Ok [[("Name", PStr "TEMP.1"); ("ID", PStr "0EF1"); ("Type", PStr "StoredSignal")];
        [("Name", PStr "TEMP.1 (raw)"); ("ID", PStr "0EF2"); ("Type", PStr "StoredSignal")]]
  else if String.eqb name "BROKEN" then Raise (mk_exn "ApiException" "(500) Server Error")
  else Ok [].

Definition sample_world : World :=
  {| spy_set_compatibility := Ok tt;
     spy_set_server := fun _ => Ok tt;
     spy_login := fun _ _ _ _ => Ok (Some "analyst");
     spy_search := sample_search;
     spy_pull := fun _ _ _ _ =>
       Ok (mk_pulled ["TEMP.1"]
             [PTimestamp (timestamp_of_fields 2025 9 1 0 0 0 (Some tz_UTC))]
             [[("index", PTimestamp (timestamp_of_fields 2025 9 1 0 0 0 (Some tz_UTC)));
               ("TEMP.1", NaN)]]);
     pd_to_datetime := sample_to_datetime;
     pd_to_datetime_format := fun _ _ =>
       Raise (ValueError "time data doesn't match format");
     py_float := fun x =>
       match x with
       | PStr "45292" => Ok serial_45292
       | PStr "45292.5" => Ok serial_45292_5
       | _ => Raise (ValueError "could not convert string to float")
       end;
     dateutil_parse := fun _ => Raise (mk_exn "ParserError" "Unknown string format");
     resolve_timezone := fun z =>
       match z with
       | PStr "UTC" => Ok tz_UTC
       | _ => Raise (mk_exn "UnknownTimeZoneError" "unknown zone")
       end;
     py_repr := fun _ => "<object>" |}.

Definition sample_url : pyval := PStr "https://seeq.example".
Definition sample_key : pyval := PStr "key".
Definition sample_password : pyval := PStr "secret".

(** A call of [search_and_pull_sensors] on the sample deployment. *)
Definition sample_pull (sensor_names : option (list string))
    (start_datetime end_datetime timezone : pyval) : result (option pydict) * state :=
  call (search_and_pull_sensors sample_world sensor_names start_datetime end_datetime
          (PStr "15min") timezone sample_url sample_key sample_password
          (PStr "Seeq") (PBool false))
       initial_state.

(** ** Vocabulary of the further properties *)

(** A value the sanitiser has nothing to do on: no float NaN, no
    [Timestamp] and no [NaT] at any depth. *)
Fixpoint is_clean (v : pyval) : bool :=
  match v with
  | PFloat f => negb (is_nan f)
  | PTimestamp _ => false
  | PNaT => false
  | PList l => forallb is_clean l
  | PDict d => forallb (fun kv => is_clean (snd kv)) d
  | _ => true
  end.

(** Every one of the four parsing strategies fails on the input. *)
Definition all_strategies_fail (w : World) (dt_str : pyval) : Prop :=
  (exists e, pd_to_datetime w dt_str = Raise e) /\
  first_format w dt_str excel_formats = None /\
  (exists e, result_bind (py_float w dt_str) excel_serial_to_timestamp = Raise e) /\
  (exists e, dateutil_parse w dt_str = Raise e).

(** A deployment in which pandas' flexible parser knows nothing, the
    explicit layouts read "1/2/2025" both month-first and day-first, and
    [dateutil] reads "1st of September 2025". *)
Definition layouts_world : World :=
  {| spy_set_compatibility := Ok tt;
     spy_set_server := fun _ => Ok tt;
     spy_login := fun _ _ _ _ => Ok (Some "analyst");
     spy_search := sample_search;
     spy_pull := fun _ _ _ _ => Raise (mk_exn "ApiException" "(503) Unavailable");
     pd_to_datetime := fun _ =>
       Raise (mk_exn "DateParseError" "Unknown datetime string format");
     pd_to_datetime_format := fun x fmt =>
       match x with
       | PStr "1/2/2025" =>
           if String.eqb fmt "%m/%d/%Y" then Ok (timestamp_of_fields 2025 1 2 0 0 0 None)
           else if String.eqb fmt "%d/%m/%Y"
           then Ok (timestamp_of_fields 2025 2 1 0 0 0 None)
           else Raise (ValueError "time data doesn't match format")
       | _ => Raise (ValueError "time data doesn't match format")
       end;
     py_float := fun _ => Raise (ValueError "could not convert string to float");
     dateutil_parse := fun x =>
       match x with
       | PStr "1st of September 2025" => Ok (timestamp_of_fields 2025 9 1 0 0 0 None)
       | _ => Raise (mk_exn "ParserError" "Unknown string format")
       end;
     resolve_timezone := fun _ => Ok tz_UTC;
     py_repr := fun _ => "<object>" |}.

(** The envelopes of the authentication paths, as the source writes
    them. *)
Definition auth_success_envelope (user : string) (url : pyval) : pydict :=
  [("success", PBool true);
   ("message", PStr ("Successfully authenticated as " ++ user));
   ("user", PStr user);
   ("server_url", url)].

Definition auth_no_user_envelope : pydict :=
  [("success", PBool false);
   ("message", PStr "Authentication failed - no user returned");
   ("error", PStr "No user returned from SPy")].

Definition auth_exception_envelope (e : exn) : pydict :=
  [("success", PBool false);
   ("message", PStr ("Authentication failed: " ++ exn_msg e));
   ("error", PStr (exn_msg e));
   ("traceback", PStr (format_exc e))].

Definition missing_credentials_envelope : pydict :=
  [("success", PBool false);
   ("message", PStr "Authentication credentials are required");
   ("error", PStr "Missing credentials")].

(** The envelope a search operation returns when its own call of
    [authenticate_seeq] came back with [auth_result]. *)
Definition auth_required_envelope (error : string) (auth_result : pydict) : pydict :=
  [("success", PBool false);
   ("message", PStr ("Authentication failed: " ++ error));
   ("error", PStr "Authentication required");
   ("auth_details", PDict auth_result)].

(** All three credentials are present. *)
Definition credentials_given (url access_key password : pyval) : bool :=
  py_truthy url && py_truthy access_key && py_truthy password.

(** Setting the compatibility option does not stop the login: it succeeds
    or fails with [AttributeError]. *)
Definition compatibility_harmless (w : World) : Prop :=
  forall e, spy_set_compatibility w = Raise e -> is_instance e "AttributeError" = true.

(** A deployment whose server refuses the login. *)
Definition refusing_world : World :=
  {| spy_set_compatibility := Raise (AttributeError "no attribute 'compatibility'");
     spy_set_server := fun _ => Raise (AttributeError "no attribute 'server'");
     spy_login := fun _ _ _ _ => Raise (mk_exn "ApiException" "(401) Unauthorized");
     spy_search := sample_search;
     spy_pull := fun _ _ _ _ => Raise (mk_exn "ApiException" "(503) Unavailable");
     pd_to_datetime := sample_to_datetime;
     pd_to_datetime_format := fun _ _ =>
       Raise (ValueError "time data doesn't match format");
     py_float := fun _ => Raise (ValueError "could not convert string to float");
     dateutil_parse := fun _ => Raise (mk_exn "ParserError" "Unknown string format");
     resolve_timezone := fun _ => Ok tz_UTC;
     py_repr := fun _ => "<object>" |}.

(** The envelopes of [search_sensors_only], as the source writes them. *)
Definition search_completed_envelope (w : World) (names : list string) : pydict :=
  [("success", PBool true);
   ("message",
    PStr ("Search completed for " ++ str_of_Z (Z.of_nat (List.length names))
          ++ " sensors"));
   ("search_results", to_records (combined_results_of w names));
   ("sensor_count", PInt (Z.of_nat (List.length names)))].

Definition no_search_results_envelope : pydict :=
  [("success", PBool false);
   ("message", PStr "Search failed for all sensors");
   ("error", PStr "No search results")].

Definition search_exception_envelope (e : exn) : pydict :=
  [("success", PBool false);
   ("message", PStr ("Search operation failed: " ++ exn_msg e));
   ("error", PStr (exn_msg e));
   ("traceback", PStr (format_exc e))].

(** The state a successful login leaves. *)
Definition logged_in (url access_key password auth_provider : pyval) (flag : bool)
    (user : string) (s : state) : state :=
  set_auth_state (mk_auth true url access_key password auth_provider flag)
    (set_spy_user (Some user)
       (log_call (CallLogin url access_key password flag) s)).

(** The search of a name found nothing, or raised. *)
Definition not_found (w : World) (name : string) : Prop :=
  spy_search w name = Ok [] \/ exists e, spy_search w name = Raise e.

(** The envelopes of [search_and_pull_sensors] after the dates, as the
    source writes them. *)
Definition no_sensors_envelope : pydict :=
  [("success", PBool false);
   ("message", PStr "No sensors found or search failed");
   ("error", PStr "Search returned no results")].

Definition no_valid_sensors_envelope (combined_results : list pydict) : pydict :=
  [("success", PBool false);
   ("message", PStr "No valid sensors found to pull data from");
   ("error", PStr "All sensors failed search");
   ("search_results", to_records combined_results)].

Definition pull_success_envelope (w : World) (combined_results valid_sensors : list pydict)
    (data_df : PulledFrame) (start_datetime end_datetime : pyval) : pydict :=
  [("success", PBool true);
   ("message",
    PStr ("Successfully retrieved data for "
          ++ str_of_Z (Z.of_nat (List.length valid_sensors)) ++ " sensors"));
   ("search_results", clean_for_json (to_records combined_results));
   ("data", clean_for_json (to_records (pf_records data_df)));
   ("data_columns", PList (map PStr (pf_columns data_df)));
   ("data_index", PList (map (fun idx => PStr (py_str w idx)) (pf_index data_df)));
   ("sensor_count", PInt (Z.of_nat (List.length valid_sensors)));
   ("time_range", PStr (py_str w start_datetime ++ " to " ++ py_str w end_datetime))].

Definition pull_failure_envelope (combined_results : list pydict) (e : exn) : pydict :=
  [("success", PBool false);
   ("message", PStr ("Failed to pull data: " ++ exn_msg e));
   ("error", PStr (exn_msg e));
   ("search_results", to_records combined_results)].


(** Every row the search returns has an [ID] cell. *)
Definition search_rows_have_id (w : World) : Prop :=
  forall name rows row,
    spy_search w name = Ok rows -> In row rows -> dict_has "ID" row = true.

(** ** The command-line entry point (lines 616-696) *)

(** [json.dumps(value)] raises on a value that is not JSON data; NaN and
    the infinities are written out ([allow_nan] is on by default). *)
Fixpoint json_serializable (v : pyval) : bool :=
  match v with
  | PTimestamp _ => false
  | PNaT => false
  | PList l => forallb json_serializable l
  | PDict d => forallb (fun kv => json_serializable (snd kv)) d
  | _ => true
  end.

(** One line written to the real standard output: the text of
    [json.dumps(value)], plain or with [default=str]. *)
Inductive printed : Type :=
| Dumps (value : pyval)
| DumpsDefaultStr (value : pyval).

Definition json_dumps (value : pyval) : result printed :=
  if json_serializable value then Ok (Dumps value)
  else Raise (TypeError "Object is not JSON serializable").

(** With [default=str] every value of [pyval] can be written. *)
Definition json_dumps_default_str (value : pyval) : result printed :=
  Ok (DumpsDefaultStr value).

Fixpoint characters (s : string) : list pyval :=
  match s with
  | EmptyString => []
  | String c rest => PStr (String c EmptyString) :: characters rest
  end.

(** The positional arguments a starred [args] unpacks to. *)
Definition unpack (args : pyval) : result (list pyval) :=
  match args with
  | PList l => Ok l
  | PStr s => Ok (characters s)
  | PDict d => Ok (map (fun kv => PStr (fst kv)) d)
  | _ => Raise (TypeError "argument after * must be an iterable")
  end.

(** The [i]-th positional argument, or the default of the parameter. *)
Definition positional (i : nat) (default : pyval) (args : list pyval) : pyval :=
  nth i args default.

(** The call raises [TypeError] unless the number of positional arguments
    fits the signature; the text of the message is not modelled. *)
Definition arity_ok (required optional : nat) (args : list pyval) : bool :=
  (Nat.leb required (List.length args)
   && Nat.leb (List.length args) (required + optional))%bool.

Definition arity_error (function_name : string) : exn :=
  TypeError (function_name ++ "() called with a wrong number of positional arguments").

Fixpoint strings_of (l : list pyval) : option (list string) :=
  match l with
  | [] => Some []
  | PStr s :: rest =>
      match strings_of rest with
      | Some names => Some (s :: names)
      | None => None
      end
  | _ => None
  end.

(** The [sensor_names] the operations are modelled on: null, or a list of
    strings.  Other values are outside the model. *)
Definition sensor_names_of (v : pyval) : option (option (list string)) :=
  match v with
  | PNone => Some None
  | PList l =>
      match strings_of l with
      | Some names => Some (Some names)
      | None => None
      end
  | _ => None
  end.

Definition usage_envelope : pydict :=
  [("success", PBool false);
   ("error", PStr "Usage: python seeq_runner.py <function_name> <json_args>")].

Definition unknown_function_envelope (function_name : string) : pydict :=
  [("success", PBool false);
   ("error", PStr ("Unknown function: " ++ function_name))].

Definition execution_error_envelope (e : exn) : pydict :=
  [("success", PBool false);
   ("error", PStr ("Execution error: " ++ exn_msg e));
   ("traceback", PStr (format_exc e))].

Definition serialization_failed_envelope (e e2 : exn) : pydict :=
  [("success", PBool false);
   ("error", PStr ("JSON serialization failed: " ++ exn_msg e));
   ("fallback_error", PStr ("Fallback also failed: " ++ exn_msg e2))].

Section Main.

Variable w : World.

(** [json.loads] *)
Variable json_loads : string -> result pyval.

(** The value the operation hands back to the entry point, and the state
    it leaves. *)
Definition returned (r : result (option pydict) * state) : result pyval * state :=
  match r with
  | (Ok env, s') => (Ok (envelope_of env), s')
  | (Raise e, s') => (Raise e, s')
  end.

(** The call of a function with starred [args], for [required] positional
    parameters and [optional] more that have defaults. *)
Definition apply_positional (function_name : string) (required optional : nat)
    (args : pyval) (s : state)
    (f : list pyval -> option (result pyval * state))
    : option (result pyval * state) :=
  match unpack args with
  | Raise e => Some (Raise e, s)
  | Ok positional_args =>
      if arity_ok required optional positional_args then f positional_args
      else Some (Raise (arity_error function_name), s)
  end.

(** The [if]/[elif] chain of lines 632-648.  [None]: the first argument of
    a search operation is outside the model. *)
Definition dispatch (function_name : string) (args : pyval) (s : state)
    : option (result pyval * state) :=
  if String.eqb function_name "authenticate_seeq" then
    apply_positional function_name 3 2 args s
      (fun a =>
         Some (returned
                 (call (authenticate_seeq w (positional 0 PNone a) (positional 1 PNone a)
                          (positional 2 PNone a) (positional 3 (PStr "Seeq") a)
                          (positional 4 (PBool false) a)) s)))
  else if String.eqb function_name "check_auth_status" then
    Some (returned (call check_auth_status s))
  else if String.eqb function_name "search_sensors_only" then
    apply_positional function_name 1 5 args s
      (fun a =>
         match sensor_names_of (positional 0 PNone a) with
         | Some sensor_names =>
             Some (returned
                     (call (search_sensors_only w sensor_names
                              (positional 1 PNone a) (positional 2 PNone a)
                              (positional 3 PNone a) (positional 4 (PStr "Seeq") a)
                              (positional 5 (PBool false) a)) s))
         | None => None
         end)
  else if String.eqb function_name "search_and_pull_sensors" then
    apply_positional function_name 3 7 args s
      (fun a =>
         match sensor_names_of (positional 0 PNone a) with
         | Some sensor_names =>
             Some (returned
                     (call (search_and_pull_sensors w sensor_names
                              (positional 1 PNone a) (positional 2 PNone a)
                              (positional 3 (PStr "15min") a) (positional 4 PNone a)
                              (positional 5 PNone a) (positional 6 PNone a)
                              (positional 7 PNone a) (positional 8 (PStr "Seeq") a)
                              (positional 9 (PBool false) a)) s))
         | None => None
         end)
  else if String.eqb function_name "test_connection" then
    apply_positional function_name 1 0 args s
      (fun a => Some (returned (call (test_connection (positional 0 PNone a)) s)))
  else if String.eqb function_name "get_server_info" then
    apply_positional function_name 1 0 args s
      (fun a => Some (returned (call (get_server_info (positional 0 PNone a)) s)))
  else Some (Ok (PDict (unknown_function_envelope function_name)), s).

(** The [with] block of lines 629-648: the arguments are decoded first,
    then the operation is looked up and run. *)
Definition run_operation (function_name args_json : string) (s : state)
    : option (result pyval * state) :=
  match json_loads args_json with
  | Raise e => Some (Raise e, s)
  | Ok args => dispatch function_name args s
  end.

(** Lines 656-679: the result is written once, with [default=str] when
    the plain writer refuses it. *)
Definition emit (result_value : pyval) : printed :=
  match json_dumps result_value with
  | Ok line => line
  | Raise e =>
      match json_dumps_default_str result_value with
      | Ok line => line
      | Raise e2 => Dumps (PDict (serialization_failed_envelope e e2))
      end
  end.

(** A run of the script: the lines on standard output, the exit status and
    the final state. *)
Definition main (argv : list string) (s : state)
    : option (list printed * Z * state) :=
  match argv with
  | _ :: function_name :: args_json :: _ =>
      match run_operation function_name args_json s with
      | None => None
      | Some (Ok result_value, s') => Some ([emit result_value], 0, s')
      | Some (Raise e, s') =>
          Some ([Dumps (PDict (execution_error_envelope e))], 1, s')
      end
  | _ => Some ([Dumps (PDict usage_envelope)], 1, s)
  end.

End Main.

(** A [json.loads] for the sample command lines. *)
Definition sample_loads (args_json : string) : result pyval :=
  if String.eqb args_json "[]" then Ok (PList [])
  else if String.eqb args_json "[null]" then Ok (PList [PNone])
  else Raise (mk_exn "JSONDecodeError" "Expecting value").

(** The names the dispatcher knows. *)
Definition operation_names : list string :=
  ["authenticate_seeq"; "check_auth_status"; "search_sensors_only";
   "search_and_pull_sensors"; "test_connection"; "get_server_info"].



(** ** The module [seeq_auth.py]

    The module reaches the server with [requests] in [test_connection] and
    [get_server_info].  Its other functions use the name [spy], which the
    module never binds ("SPy is imported in seeq_runner.py - this file
    should not import it separately"): reading it raises [NameError]. *)

(** What [requests.get] returns: the status code, the outcome of
    [response.json()] and [response.text]. *)
Record Response := mk_response {
  status_code : Z;
  response_json : result pyval;
  response_text : string
}.

(** The classes [requests] derives from the class named in an [except]
    clause: a timeout while connecting is both a [ConnectionError] and a
    [Timeout]. *)
Definition requests_subclasses (cls : string) : list string :=
  if String.eqb cls "ConnectionError" then ["ProxyError"; "SSLError"; "ConnectTimeout"]
  else if String.eqb cls "Timeout" then ["ConnectTimeout"; "ReadTimeout"]
  else [].

(** [except cls:] for the exception classes of [requests]. *)
Definition requests_isinstance (e : exn) (cls : string) : bool :=
  (String.eqb (exn_type e) cls || str_in (exn_type e) (requests_subclasses cls))%bool.

Definition NameError (m : string) : exn := mk_exn "NameError" m.

Module SeeqAuth.

Section Functions.

Variable w : World.

(** [requests.get(url, timeout=10)] *)
Variable requests_get : string -> result Response.

Definition test_connection (url : pyval) : M state pydict unit :=
  try_except
    (response <- lift (requests_get (py_str w url ++ "/api/status")) ;;
     if status_code response =? 200
     then return_ [("success", PBool true);
                   ("message", PStr "Server is reachable");
                   ("status_code", PInt (status_code response))]
     else return_ [("success", PBool false);
                   ("message",
                    PStr ("Server responded with status code: "
                          ++ str_of_Z (status_code response)));
                   ("status_code", PInt (status_code response))])
    (fun e =>
       if requests_isinstance e "ConnectionError" then
         return_ [("success", PBool false);
                  ("message", PStr "Cannot connect to server - connection refused");
                  ("error", PStr "ConnectionError")]
       else if requests_isinstance e "Timeout" then
         return_ [("success", PBool false);
                  ("message", PStr "Connection timeout");
                  ("error", PStr "Timeout")]
       else
         return_ [("success", PBool false);
                  ("message", PStr ("Connection test failed: " ++ exn_msg e));
                  ("error", PStr (exn_msg e))]).

Definition get_server_info (url : pyval) : M state pydict unit :=
  try_except
    (response <- lift (requests_get (py_str w url ++ "/api/status")) ;;
     if status_code response =? 200 then
       try_except
         (data <- lift (response_json response) ;;
          return_ [("success", PBool true);
                   ("server_info", data);
                   ("message", PStr "Server information retrieved successfully")])
         (fun e =>
            if is_instance e "JSONDecodeError" then
              return_ [("success", PBool true);
                       ("server_info",
                        PDict [("raw_response", PStr (response_text response))]);
                       ("message", PStr "Server responded but response is not JSON")]
            else raise e)
     else
       return_ [("success", PBool false);
                ("message",
                 PStr ("Failed to get server info: " ++ str_of_Z (status_code response)));
                ("status_code", PInt (status_code response))])
    (fun e =>
       return_ [("success", PBool false);
                ("message", PStr ("Failed to get server info: " ++ exn_msg e));
                ("error", PStr (exn_msg e))]).

(** Reading the global name [spy]. *)
Definition spy {R} : M state R unit :=
  raise (NameError "name 'spy' is not defined").

Definition authenticate_seeq
    (url access_key password auth_provider ignore_ssl_errors : pyval)
    : M state pydict unit :=
  try_except
    (try_except (spy ;; lift (spy_set_compatibility w))
       (fun e => if is_instance e "AttributeError" then ret tt else raise e) ;;
     let ignore_ssl_errors := coerce_ignore_ssl_errors ignore_ssl_errors in
     spy ;;
     login w url access_key password ignore_ssl_errors ;;
     spy ;;
     user <- gets spy_user ;;
     match user with
     | Some u =>
         return_ [("success", PBool true);
                  ("message", PStr ("Successfully authenticated as " ++ u));
                  ("user", PStr u);
                  ("server_url", url)]
     | None =>
         return_ [("success", PBool false);
                  ("message", PStr "Authentication failed - no user returned");
                  ("error", PStr "No user returned from SPy")]
     end)
    (fun e =>
       let error_msg := exn_msg e in
       let error_trace := format_exc e in
       return_ [("success", PBool false);
                ("message", PStr ("Authentication failed: " ++ error_msg));
                ("error", PStr error_msg);
                ("traceback", PStr error_trace)]).

Definition check_auth_status : M state pydict unit :=
  try_except
    (spy ;;
     user <- gets spy_user ;;
     match user with
     | Some u =>
         return_ [("success", PBool true);
                  ("isAuthenticated", PBool true);
                  ("user", PStr u);
                  ("message", PStr ("Authenticated as " ++ u))]
     | None =>
         return_ [("success", PBool true);
                  ("isAuthenticated", PBool false);
                  ("message", PStr "Not authenticated")]
     end)
    (fun e =>
       return_ [("success", PBool false);
                ("isAuthenticated", PBool false);
                ("error", PStr (exn_msg e));
                ("message", PStr "Error checking authentication status")]).

End Functions.

End SeeqAuth.

(** A server that answers the status request with 503, then one whose
    connection attempt times out. *)
Definition unavailable_server (url : string) : result Response :=
  Ok (mk_response 503 (Raise (mk_exn "JSONDecodeError" "Expecting value")) "busy").

Definition slow_server (url : string) : result Response :=
  Raise (mk_exn "ConnectTimeout" "connection to host timed out").

(** * Properties *)

Unset Implicit Arguments.

(** ** The JSON sanitiser *)

Lemma float_ne_self (f : pyfloat) : float_ne f f = is_nan f.
Proof.
  unfold float_ne, SFeqb, SFcompare.
  destruct f as [s | s | | s m e]; try reflexivity; try (destruct s; reflexivity).
  destruct s; rewrite Z.compare_refl, Pos.compare_cont_refl; reflexivity.
Qed.

Lemma py_ne_self_nan (v : pyval) :
  py_ne_self v = true -> v = NaN \/ v = PNaT.
Proof.
  destruct v; simpl; try discriminate; auto.
  rewrite float_ne_self. destruct f; simpl; try discriminate. auto.
Qed.

Lemma clean_for_json_list (l : list pyval) :
  clean_for_json (PList l) = PList (map clean_for_json l).
Proof. reflexivity. Qed.

Lemma clean_for_json_dict (d : pydict) :
  clean_for_json (PDict d)
  = PDict (map (fun kv => (fst kv, clean_for_json (snd kv))) d).
Proof. reflexivity. Qed.

Lemma clean_for_json_float (f : pyfloat) :
  clean_for_json (PFloat f) = if is_nan f then PNone else PFloat f.
Proof. simpl. rewrite float_ne_self. reflexivity. Qed.

Lemma dict_get_clean (k : string) (d : pydict) :
  dict_get k (map (fun kv => (fst kv, clean_for_json (snd kv))) d)
  = option_map clean_for_json (dict_get k d).
Proof.
  induction d as [| [k' v] d IH]; simpl; [reflexivity |].
  destruct (String.eqb k k'); [reflexivity | exact IH].
Qed.

Lemma clean_for_json_has_no_nan (x : pyval) : has_nan (clean_for_json x) = false.
Proof.
  induction x as [ | b | z | f | s | t | | l IH | d IH] using pyval_deep_ind;
    try reflexivity.
  - rewrite clean_for_json_float. destruct f; reflexivity.
  - simpl. destruct (ts_tz t); reflexivity.
  - rewrite clean_for_json_list. simpl.
    induction IH as [| y l Hy _ IHl]; simpl; [reflexivity |].
    rewrite Hy. exact IHl.
  - rewrite clean_for_json_dict. simpl.
    induction IH as [| kv d Hkv _ IHd]; simpl; [reflexivity |].
    rewrite Hkv. exact IHd.
Qed.

Lemma select_clean_nan (path : list selector) :
  forall x, select path x = Some NaN -> select path (clean_for_json x) = Some PNone.
Proof.
  induction path as [| step path IH]; intros x H.
  - simpl in H. injection H as ->. reflexivity.
  - destruct step as [n | k]; destruct x; simpl in H; try discriminate.
    + rewrite clean_for_json_list. simpl.
      rewrite nth_error_map.
      destruct (nth_error l n) as [y |]; [simpl; auto | discriminate].
    + rewrite clean_for_json_dict. simpl.
      rewrite dict_get_clean.
      destruct (dict_get k d) as [y |]; [simpl; auto | discriminate].
Qed.

(** C8: no NaN survives the sanitiser, and a NaN leaf at any position
    inside lists and dicts becomes [None] at that position.  The NaN test
    comes before the scalar pass-through, so a float NaN is never passed
    through. *)
Theorem clean_for_json_maps_nan_to_null :
  (forall x, has_nan (clean_for_json x) = false) /\
  (forall path x, select path x = Some NaN ->
                  select path (clean_for_json x) = Some PNone) /\
  clean_for_json NaN = PNone.
Proof.
  split; [exact clean_for_json_has_no_nan |].
  split; [exact select_clean_nan | reflexivity].
Qed.

Lemma clean_for_json_maps_nan_to_null_witness :
  select [Index 0; Key "a"; Index 1]
    (PList [PDict [("a", PList [PInt 1; NaN])]]) = Some NaN /\
  select [Index 0; Key "a"; Index 1]
    (clean_for_json (PList [PDict [("a", PList [PInt 1; NaN])]])) = Some PNone.
Proof.
  split; [reflexivity |].
  apply (proj1 (proj2 clean_for_json_maps_nan_to_null)). reflexivity.
Defined.

(** C9: the sanitiser is idempotent. *)
Theorem clean_for_json_idempotent :
  forall x, clean_for_json (clean_for_json x) = clean_for_json x.
Proof.
  induction x as [ | b | z | f | s | t | | l IH | d IH] using pyval_deep_ind;
    try reflexivity.
  - rewrite clean_for_json_float. destruct (is_nan f) eqn:E; [reflexivity |].
    rewrite clean_for_json_float, E. reflexivity.
  - simpl. destruct (ts_tz t); reflexivity.
  - rewrite !clean_for_json_list. f_equal.
    rewrite map_map.
    induction IH as [| y l Hy _ IHl]; [reflexivity |].
    cbn [map]. rewrite Hy. f_equal. exact IHl.
  - rewrite !clean_for_json_dict. f_equal.
    rewrite map_map.
    induction IH as [| kv d Hkv _ IHd]; [reflexivity |].
    cbn [map fst snd]. rewrite Hkv. f_equal. exact IHd.
Qed.

Lemma pad_digits_length (width : nat) :
  forall n acc, String.length (pad_digits width n acc) = (width + String.length acc)%nat.
Proof.
  induction width as [| width IH]; intros n acc; simpl; [reflexivity |].
  rewrite IH. simpl. lia.
Qed.

Lemma string_length_app (a b : string) :
  String.length (a ++ b) = (String.length a + String.length b)%nat.
Proof. induction a; simpl; [reflexivity | rewrite IHa; reflexivity]. Qed.




(** ** Authentication *)

Ltac run_monad :=
  unfold call, invoke, bind, try_except, lift, ret, return_, raise, gets, modify,
    embed in *.

Lemma str_in_In (x : string) (l : list string) : str_in x l = true <-> In x l.
Proof.
  unfold str_in. rewrite existsb_exists. split.
  - intros [y [Hy E]]. apply String.eqb_eq in E. subst. exact Hy.
  - intros H. exists x. split; [exact H | apply String.eqb_refl].
Qed.

(** What a call of [authenticate_seeq] does: it always returns an envelope
    that satisfies the invariant, leaves the locals of its caller alone,
    and issues at most the login call, with the coerced flag. *)
Lemma authenticate_seeq_returns (w : World)
    (url access_key password auth_provider ignore_ssl_errors : pyval) (s : state) :
  exists env s',
    authenticate_seeq w url access_key password auth_provider ignore_ssl_errors s
    = (Returned env, s') /\
    envelope_ok env /\
    local_traceback s' = local_traceback s /\
    (exists l, calls s' = (calls s ++ l)%list /\
       (l = [] \/
        l = [CallLogin url access_key password
               (coerce_ignore_ssl_errors ignore_ssl_errors)])) /\
    (dict_get "success" env = Some (PBool true) -> spy_user s' <> None).
Proof.
  unfold authenticate_seeq, login, envelope_ok, dict_has. run_monad.
  destruct (spy_set_compatibility w) as [[] | e0];
    [| destruct (is_instance e0 "AttributeError")];
    try (destruct (spy_set_server w url) as [[] | e1]);
    try (destruct (spy_login w url access_key password
                     (coerce_ignore_ssl_errors ignore_ssl_errors))
           as [[u |] | e2]);
    simpl;
    (eexists; eexists; split; [reflexivity |]);
    simpl;
    (split; [split; [eexists; reflexivity | intros; try reflexivity; try discriminate] |]);
    (split; [reflexivity |]);
    (split;
     [ first [ exists []; split; [symmetry; apply app_nil_r | left; reflexivity]
             | eexists; split; [reflexivity | right; reflexivity] ]
     | intros H; try discriminate H; try (intros H'; discriminate H') ]).
Qed.

Lemma authenticate_seeq_login_issued (w : World)
    (url access_key password auth_provider ignore_ssl_errors : pyval) (s : state) :
  (forall e, spy_set_compatibility w = Raise e -> is_instance e "AttributeError" = true) ->
  calls (snd (authenticate_seeq w url access_key password auth_provider
                ignore_ssl_errors s))
  = (calls s ++ [CallLogin url access_key password
                   (coerce_ignore_ssl_errors ignore_ssl_errors)])%list.
Proof.
  intros Hattr.
  unfold authenticate_seeq, login. run_monad.
  destruct (spy_set_compatibility w) as [[] | e0];
    [| rewrite (Hattr e0 eq_refl)];
    destruct (spy_set_server w url) as [[] | e1];
    destruct (spy_login w url access_key password
                (coerce_ignore_ssl_errors ignore_ssl_errors))
      as [[u |] | e2];
    reflexivity.
Qed.

(** C10: [ignore_ssl_errors] is coerced to a boolean before the login call.
    A string gives [True] exactly when its lowercase form is one of
    'true', '1', 'yes', 'on'; a boolean is kept; anything else gives
    [False].  The only remote call [authenticate_seeq] can issue is the
    login with the coerced flag, and it is issued unless setting the
    compatibility option fails with something else than [AttributeError]. *)
Theorem ignore_ssl_errors_coerced :
  (forall s, coerce_ignore_ssl_errors (PStr s) = true
             <-> In (lower s) ["true"; "1"; "yes"; "on"]) /\
  (forall b, coerce_ignore_ssl_errors (PBool b) = b) /\
  (forall v, (forall s, v <> PStr s) -> (forall b, v <> PBool b) ->
             coerce_ignore_ssl_errors v = false) /\
  (forall w url access_key password auth_provider v s,
      exists l,
        calls (snd (call (authenticate_seeq w url access_key password auth_provider v) s))
        = (calls s ++ l)%list /\
        (l = [] \/ l = [CallLogin url access_key password (coerce_ignore_ssl_errors v)])) /\
  (forall w url access_key password auth_provider v s,
      (forall e, spy_set_compatibility w = Raise e ->
                 is_instance e "AttributeError" = true) ->
      calls (snd (call (authenticate_seeq w url access_key password auth_provider v) s))
      = (calls s ++ [CallLogin url access_key password (coerce_ignore_ssl_errors v)])%list).
Proof.
  split; [intros s; apply str_in_In |].
  split; [reflexivity |].
  split.
  { intros v Hs Hb. destruct v; try reflexivity.
    - exfalso. exact (Hb b eq_refl).
    - exfalso. exact (Hs s eq_refl). }
  split.
  - intros w url access_key password auth_provider v s.
    destruct (authenticate_seeq_returns w url access_key password auth_provider v s)
      as (env & s' & E & _ & _ & Hl & _).
    unfold call. rewrite E. exact Hl.
  - intros w url access_key password auth_provider v s Hattr.
    rewrite <- (authenticate_seeq_login_issued w url access_key password
                  auth_provider v s Hattr).
    unfold call.
    destruct (authenticate_seeq w url access_key password auth_provider v s)
      as [[a | r | e] s']; reflexivity.
Qed.

Lemma ignore_ssl_errors_coerced_witness :
  coerce_ignore_ssl_errors (PInt 1) = false /\
  calls (snd (call (authenticate_seeq sample_world sample_url sample_key
                      sample_password (PStr "Seeq") (PStr "YES"))
                initial_state))
  = [CallLogin sample_url sample_key sample_password true].
Proof.
  split.
  - apply (proj1 (proj2 (proj2 ignore_ssl_errors_coerced))).
    + intros s H. discriminate H.
    + intros b H. discriminate H.
  - apply (proj2 (proj2 (proj2 (proj2 ignore_ssl_errors_coerced)))
             sample_world sample_url sample_key sample_password (PStr "Seeq")
             (PStr "YES") initial_state).
    intros e H. discriminate H.
Defined.

(** ** The date/time normaliser *)

Section Normaliser.

Variable w : World.

Lemma try_formats_first (dt_str : pyval) (formats : list string) :
  try_formats w dt_str formats tt
  = match first_format w dt_str formats with
    | Some t => (Returned (Some (PdTimestamp t)), tt)
    | None => (Normal tt, tt)
    end.
Proof.
  induction formats as [| fmt rest IH]; simpl; [reflexivity |].
  run_monad.
  destruct (pd_to_datetime_format w dt_str fmt) as [t | e]; [reflexivity | exact IH].
Qed.

(** The fallback chain, strategy by strategy. *)
Lemma parsed_chain (dt_str : pyval) :
  py_truthy dt_str = true ->
  parsed w dt_str =
  match pd_to_datetime w dt_str with
  | Ok t => Ok (Some (PdTimestamp t))
  | Raise _ =>
      match first_format w dt_str excel_formats with
      | Some t => Ok (Some (PdTimestamp t))
      | None =>
          match result_bind (py_float w dt_str) excel_serial_to_timestamp with
          | Ok t => Ok (Some (PdTimestamp t))
          | Raise _ =>
              match dateutil_parse w dt_str with
              | Ok t => Ok (Some (PyDatetime t))
              | Raise _ => Ok None
              end
          end
      end
  end.
Proof.
  intros Htruthy.
  unfold parsed, parse_excel_friendly_datetime. rewrite Htruthy. simpl negb. cbv iota.
  unfold call, bind at 1, try_except at 1, bind at 1, lift at 1.
  destruct (pd_to_datetime w dt_str) as [t | e]; [reflexivity |].
  unfold ret at 1, try_except at 1, bind at 1.
  rewrite try_formats_first.
  destruct (first_format w dt_str excel_formats) as [t |]; [reflexivity |].
  run_monad.
  destruct (py_float w dt_str) as [x | e1]; simpl.
  - destruct (excel_serial_to_timestamp x) as [t | e2]; simpl; [reflexivity |].
    destruct (dateutil_parse w dt_str); reflexivity.
  - destruct (dateutil_parse w dt_str); reflexivity.
Qed.

(** An empty input gives [None], by the guard at the top. *)
Lemma parsed_falsy (dt_str : pyval) :
  py_truthy dt_str = false -> parsed w dt_str = Ok None.
Proof.
  intros H. unfold parsed, parse_excel_friendly_datetime. rewrite H. reflexivity.
Qed.

(** The normaliser never raises: every failure of a strategy is swallowed
    by the handler next to it. *)
Lemma parsed_never_raises (dt_str : pyval) : exists r, parsed w dt_str = Ok r.
Proof.
  destruct (py_truthy dt_str) eqn:E.
  - rewrite (parsed_chain _ E).
    destruct (pd_to_datetime w dt_str); [eauto |].
    destruct (first_format w dt_str excel_formats); [eauto |].
    destruct (result_bind _ _); [eauto |].
    destruct (dateutil_parse w dt_str); eauto.
  - rewrite (parsed_falsy _ E). eauto.
Qed.

(** When every strategy fails the call still returns [None]. *)
Lemma parsed_all_fail (dt_str : pyval) e1 e3 e4 :
  py_truthy dt_str = true ->
  pd_to_datetime w dt_str = Raise e1 ->
  first_format w dt_str excel_formats = None ->
  result_bind (py_float w dt_str) excel_serial_to_timestamp = Raise e3 ->
  dateutil_parse w dt_str = Raise e4 ->
  parsed w dt_str = Ok None.
Proof.
  intros Ht H1 H2 H3 H4. rewrite (parsed_chain _ Ht), H1, H2, H3, H4. reflexivity.
Qed.

End Normaliser.






(** ** The orchestrator, block by block *)

Section Orchestrator.

Variable w : World.

Lemma only_logins_refl (s : state) : only_logins s s.
Proof.
  split; [| reflexivity]. exists []. split; [symmetry; apply app_nil_r | reflexivity].
Qed.

Lemma only_logins_trans (s1 s2 s3 : state) :
  only_logins s1 s2 -> only_logins s2 s3 -> only_logins s1 s3.
Proof.
  intros [[l1 [E1 F1]] T1] [[l2 [E2 F2]] T2]. split; [| congruence].
  exists (l1 ++ l2)%list. split.
  - rewrite E2, E1, app_assoc. reflexivity.
  - rewrite forallb_app, F1, F2. reflexivity.
Qed.

(** The authentication block either lets the function go on, with a user
    logged in, or returns a [success: False] envelope; it never raises. *)
Lemma authenticate_block_outcome
    (url access_key password auth_provider ignore_ssl_errors : pyval) (s : state) :
  match authenticate_block w url access_key password auth_provider
          ignore_ssl_errors s with
  | (Normal _, s') => spy_user s' <> None /\ only_logins s s'
  | (Returned env, s') =>
      envelope_ok env /\ dict_get "success" env = Some (PBool false) /\
      only_logins s s'
  | (Raised _, _) => False
  end.
Proof.
  unfold authenticate_block.
  destruct (py_truthy url && py_truthy access_key && py_truthy password).
  2:{ unfold return_. split; [| split; [reflexivity | apply only_logins_refl]].
      split; [eexists; reflexivity | reflexivity]. }
  destruct (authenticate_seeq_returns w url access_key password auth_provider
              ignore_ssl_errors s)
    as (env & s' & E & [[b Hb] Herr] & Htb & (l & Hl & Hcases) & Huser).
  assert (Hlog : only_logins s s').
  { split; [| exact Htb]. exists l. split; [exact Hl |].
    destruct Hcases as [-> | ->]; reflexivity. }
  unfold invoke, call, bind at 1. rewrite E.
  unfold bind at 1, subscript. rewrite Hb. unfold ret at 1.
  destruct b; simpl py_truthy; simpl negb; cbv iota.
  - unfold bind, ret, gets, return_.
    destruct (spy_user s') eqn:Eu.
    + split; [rewrite Eu; discriminate | exact Hlog].
    + exfalso. exact (Huser Hb eq_refl).
  - unfold bind at 1, bind at 1, get_or.
    destruct (dict_get "error" env); unfold ret, return_;
      (split; [split; [eexists; reflexivity | reflexivity]
              | split; [reflexivity | exact Hlog]]).
Qed.

(** The only envelope the body of the date block returns by itself. *)
Lemma resolve_datetimes_returned (start_datetime end_datetime timezone : pyval)
    (env : pydict) :
  fst (resolve_datetimes w start_datetime end_datetime timezone tt) = Returned env ->
  env = missing_datetime_envelope.
Proof.
  unfold resolve_datetimes. run_monad.
  destruct (parsed w start_datetime) as [[sd |] | e1];
    destruct (parsed w end_datetime) as [[ed |] | e2]; simpl;
    try discriminate; try (intros H; injection H as <-; reflexivity).
  destruct (py_truthy timezone).
  - destruct (dt_tz_localize_UTC sd) as [sd1 | ?]; simpl; [| discriminate].
    destruct (dt_tz_convert w timezone sd1) as [sd2 | ?]; simpl; [| discriminate].
    destruct (dt_tz_localize_UTC ed) as [ed1 | ?]; simpl; [| discriminate].
    destruct (dt_tz_convert w timezone ed1) as [ed2 | ?]; simpl; discriminate.
  - destruct (dt_tz sd) as [[z |] | ?]; simpl; try discriminate.
    destruct (dt_tz_localize_UTC sd) as [sd1 | ?]; simpl; [| discriminate].
    destruct (dt_tz_localize_UTC ed) as [ed1 | ?]; simpl; discriminate.
Qed.

(** An empty bound makes the body return the "missing" envelope. *)
Lemma resolve_datetimes_missing (start_datetime end_datetime timezone : pyval) :
  py_truthy start_datetime = false \/ py_truthy end_datetime = false ->
  fst (resolve_datetimes w start_datetime end_datetime timezone tt)
  = Returned missing_datetime_envelope.
Proof.
  intros H. unfold resolve_datetimes. run_monad.
  destruct (parsed_never_raises w start_datetime) as [rs Es].
  destruct (parsed_never_raises w end_datetime) as [re Ee].
  destruct H as [H | H].
  - rewrite (parsed_falsy w start_datetime H). simpl.
    rewrite Ee. simpl. reflexivity.
  - rewrite Es. simpl. rewrite (parsed_falsy w end_datetime H). simpl.
    destruct rs; reflexivity.
Qed.

(** The date block: the body's outcome, with an exception turned into the
    "invalid format" envelope after [import traceback]. *)
Lemma datetime_block_outcome (start_datetime end_datetime timezone : pyval) (s : state) :
  datetime_block w start_datetime end_datetime timezone s
  = match fst (resolve_datetimes w start_datetime end_datetime timezone tt) with
    | Normal p => (Normal p, s)
    | Returned env => (Returned env, s)
    | Raised e => (Returned (invalid_datetime_envelope e), set_local_traceback true s)
    end.
Proof.
  unfold datetime_block, import_traceback. run_monad.
  destruct (fst (resolve_datetimes w start_datetime end_datetime timezone tt));
    reflexivity.
Qed.

Lemma log_calls_nil (s : state) : log_calls [] s = s.
Proof. destruct s. unfold log_calls. simpl. rewrite app_nil_r. reflexivity. Qed.

Lemma log_calls_app (a b : list remote_call) (s : state) :
  log_calls b (log_calls a s) = log_calls (a ++ b) s.
Proof. unfold log_calls. simpl. rewrite app_assoc. reflexivity. Qed.

(** The search loop never aborts: it issues one search per name, in order,
    and collects one frame per name. *)
Lemma for_each_search (names : list string) :
  forall (acc : list (list pydict)) (s : state),
    for_each (R := pydict) names acc (search_one w) s
    = (Normal (acc ++ map (search_frame w) names)%list,
       log_calls (map CallSearch names) s).
Proof.
  induction names as [| n names IH]; intros acc s; simpl.
  - unfold ret. rewrite app_nil_r, log_calls_nil. reflexivity.
  - unfold bind at 1, search_one, search_frame.
    unfold try_except, bind at 1, modify, bind at 1, lift.
    destruct (spy_search w n) as [result | e].
    + destruct (frame_empty result); simpl; unfold ret; rewrite IH;
        rewrite <- app_assoc; simpl;
        change (log_call (CallSearch n) s) with (log_calls [CallSearch n] s);
        rewrite log_calls_app; reflexivity.
    + unfold ret. rewrite IH. rewrite <- app_assoc. simpl.
      change (log_call (CallSearch n) s) with (log_calls [CallSearch n] s).
      rewrite log_calls_app. reflexivity.
Qed.

(** *** Frames: columns, names and duplicates *)

Lemma dict_get_set_same (k : string) (v : pyval) (d : pydict) :
  dict_get k (dict_set k v d) = Some v.
Proof.
  induction d as [| [k' v'] d IH]; simpl.
  - rewrite String.eqb_refl. reflexivity.
  - destruct (String.eqb k k') eqn:E; simpl; rewrite ?String.eqb_refl, ?E; auto.
Qed.

Lemma dict_get_key (k : string) (d : pydict) (v : pyval) :
  dict_get k d = Some v -> In k (map fst d).
Proof.
  induction d as [| [k' v'] d IH]; simpl; [discriminate |].
  destruct (String.eqb k k') eqn:E.
  - apply String.eqb_eq in E. auto.
  - auto.
Qed.

Lemma str_in_cons (x y : string) (l : list string) :
  str_in x (y :: l) = String.eqb x y || str_in x l.
Proof. reflexivity. Qed.

Lemma unique_first_keeps (xs : list string) :
  forall seen x, In x xs -> str_in x seen = false -> In x (unique_first seen xs).
Proof.
  induction xs as [| y xs IH]; intros seen x Hin Hseen; [contradiction |].
  simpl. destruct (str_in y seen) eqn:Ey.
  - destruct Hin as [-> | Hin]; [congruence | auto].
  - destruct Hin as [-> | Hin]; [left; reflexivity |].
    destruct (String.eqb x y) eqn:Exy.
    + apply String.eqb_eq in Exy. left. auto.
    + right. apply IH; [exact Hin |]. rewrite str_in_cons, Exy. exact Hseen.
Qed.

Lemma dict_get_reindex (c : string) (columns : list string) (row : pydict) :
  In c columns ->
  dict_get c (reindex columns row)
  = Some (match dict_get c row with Some v => v | None => NaN end).
Proof.
  induction columns as [| c0 columns IH]; intros Hin; [contradiction |].
  simpl. destruct (String.eqb c c0) eqn:E.
  - apply String.eqb_eq in E. subst. reflexivity.
  - destruct Hin as [-> | Hin]; [rewrite String.eqb_refl in E; discriminate | auto].
Qed.

Lemma search_frame_named (n : string) (row : pydict) :
  In row (search_frame w n) -> original_name row = Some (PStr n).
Proof.
  unfold search_frame, original_name.
  destruct (spy_search w n) as [result | e].
  - destruct (frame_empty result).
    + intros [<- | []]. reflexivity.
    + unfold set_column. rewrite in_map_iff. intros [r0 [<- _]].
      apply dict_get_set_same.
  - intros [<- | []]. reflexivity.
Qed.




End Orchestrator.











(** *** The whole of [search_and_pull_sensors] *)

Section SearchAndPull.

Variable w : World.



(** The three stages of the function: authentication, dates, and the
    rest under the outermost handler. *)
Lemma search_and_pull_sensors_stages (names : option (list string))
    (start_datetime end_datetime grid timezone : pyval)
    (url access_key password auth_provider ignore_ssl_errors : pyval) (s : state) :
  call (search_and_pull_sensors w names start_datetime end_datetime grid timezone
          url access_key password auth_provider ignore_ssl_errors) s
  = match authenticate_block w url access_key password auth_provider
            ignore_ssl_errors (set_local_traceback false s) with
    | (Normal _, s1) =>
        match fst (resolve_datetimes w start_datetime end_datetime timezone tt) with
        | Normal (start_dt, end_dt) =>
            call (try_except
                    (search_and_pull_block w names start_dt end_dt
                       start_datetime end_datetime grid url)
                    outer_handler) s1
        | Returned env => (Ok (Some env), s1)
        | Raised e =>
            (Ok (Some (invalid_datetime_envelope e)), set_local_traceback true s1)
        end
    | (Returned env, s1) => (Ok (Some env), s1)
    | (Raised e, s1) => call (outer_handler (A := unit) e) s1
    end.
Proof.
  unfold search_and_pull_sensors, call.
  unfold bind at 1, modify at 1, try_except at 1, bind at 1.
  destruct (authenticate_block w url access_key password auth_provider
              ignore_ssl_errors (set_local_traceback false s)) as [[[] | env | e] s1];
    try reflexivity.
  unfold bind at 1. rewrite datetime_block_outcome.
  destruct (fst (resolve_datetimes w start_datetime end_datetime timezone tt))
    as [[start_dt end_dt] | env | e]; reflexivity.
Qed.

End SearchAndPull.

Section Envelopes.

Variable w : World.


(** When a bound does not resolve, the function returns a [success: False]
    envelope and has issued login calls only. *)
Lemma unresolved_datetime_outcome (names : option (list string))
    (start_datetime end_datetime grid timezone : pyval)
    (url access_key password auth_provider ignore_ssl_errors : pyval) (s : state) :
  (forall p, fst (resolve_datetimes w start_datetime end_datetime timezone tt)
             <> Normal p) ->
  exists env s',
    call (search_and_pull_sensors w names start_datetime end_datetime grid timezone
            url access_key password auth_provider ignore_ssl_errors) s
    = (Ok (Some env), s') /\
    dict_get "success" env = Some (PBool false) /\
    envelope_ok env /\
    exists l, calls s' = (calls s ++ l)%list /\ forallb is_login l = true.
Proof.
  intros Hfail.
  rewrite search_and_pull_sensors_stages.
  pose proof (authenticate_block_outcome w url access_key password auth_provider
                ignore_ssl_errors (set_local_traceback false s)) as Hauth.
  destruct (authenticate_block w url access_key password auth_provider
              ignore_ssl_errors (set_local_traceback false s)) as [[[] | env | e] s1].
  - destruct Hauth as [_ [[l1 [Hl1 Hlogins]] _]]. simpl in Hl1.
    destruct (fst (resolve_datetimes w start_datetime end_datetime timezone tt))
      as [p | env | e] eqn:Er.
    + exfalso. exact (Hfail p eq_refl).
    + apply resolve_datetimes_returned in Er. subst env.
      eexists; eexists. split; [reflexivity |].
      split; [reflexivity |].
      split; [split; [eexists; reflexivity | reflexivity] |].
      exists l1. split; assumption.
    + eexists; eexists. split; [reflexivity |].
      split; [reflexivity |].
      split; [split; [eexists; reflexivity | reflexivity] |].
      exists l1. split; assumption.
  - destruct Hauth as [Hok [Hfalse [[l1 [Hl1 Hlogins]] _]]]. simpl in Hl1.
    eexists; eexists. split; [reflexivity |].
    split; [exact Hfalse |]. split; [exact Hok |].
    exists l1. split; assumption.
  - contradiction.
Qed.

(** The other operations of the runner always return an envelope that
    satisfies the invariant. *)
Lemma check_auth_status_returns (s : state) :
  exists env s', call (check_auth_status) s = (Ok (Some env), s') /\ envelope_ok env.
Proof.
  unfold check_auth_status, envelope_ok. run_monad.
  destruct (spy_user s) as [u |]; [destruct (is_authenticated (auth_state s)) |];
    (eexists; eexists; split; [reflexivity |]);
    (split; [eexists; reflexivity | intros H; discriminate H]).
Qed.

Lemma test_connection_returns (url : pyval) (s : state) :
  exists env s', call (test_connection url) s = (Ok (Some env), s') /\ envelope_ok env.
Proof.
  eexists; eexists. split; [reflexivity |].
  split; [eexists; reflexivity | intros H; discriminate H].
Qed.

Lemma get_server_info_returns (url : pyval) (s : state) :
  exists env s', call (get_server_info url) s = (Ok (Some env), s') /\ envelope_ok env.
Proof.
  eexists; eexists. split; [reflexivity |].
  split; [eexists; reflexivity | intros H; discriminate H].
Qed.

Lemma search_sensors_only_returns (names : option (list string))
    (url access_key password auth_provider ignore_ssl_errors : pyval) (s : state) :
  exists env s',
    call (search_sensors_only w names url access_key password auth_provider
            ignore_ssl_errors) s = (Ok (Some env), s') /\
    envelope_ok env.
Proof.
  unfold search_sensors_only, call, try_except, bind at 1.
  pose proof (authenticate_block_outcome w url access_key password auth_provider
                ignore_ssl_errors s) as Hauth.
  destruct (authenticate_block w url access_key password auth_provider
              ignore_ssl_errors s) as [[[] | env | e] s1].
  - unfold bind at 1, search_loop, bind at 1, iterate.
    destruct names as [requested |].
    + unfold ret at 1. rewrite for_each_search. simpl app.
      destruct requested as [| n requested]; simpl nonempty; cbv iota.
      * unfold return_. eexists; eexists. split; [reflexivity |].
        split; [eexists; reflexivity | reflexivity].
      * unfold bind, py_len, ret, return_.
        eexists; eexists. split; [reflexivity |].
        split; [eexists; reflexivity | intros H; discriminate H].
    + unfold raise, return_. eexists; eexists. split; [reflexivity |].
      split; [eexists; reflexivity | reflexivity].
  - destruct Hauth as [Hok _]. eexists; eexists. split; [reflexivity | exact Hok].
  - contradiction.
Qed.

End Envelopes.

(** ** The claims about the orchestrator *)

(** C1: the operations are meant to return an envelope and never to raise.
    [search_and_pull_sensors] does raise: with valid credentials, valid
    dates and [sensor_names] null, the [TypeError] of the search loop
    reaches the outermost handler, which reads the local name [traceback]
    before any [import traceback] has bound it, and the
    [UnboundLocalError] leaves the function. *)
Theorem search_and_pull_sensors_raises_unbound_local :
  fst (sample_pull None (PStr "2025-09-01") (PStr "2025-09-02") PNone)
  = Raise (UnboundLocalError
             "cannot access local variable 'traceback' where it is not associated with a value").
Proof. vm_compute. reflexivity. Qed.

(** C2, as stated, fails: on an empty input the normaliser returns [None]
    instead of raising, and the envelope of the operation reports missing
    values, not a parse failure. *)
Lemma empty_datetime_does_not_raise :
  parsed sample_world (PStr "") = Ok None /\
  parsed sample_world PNone = Ok None /\
  (forall e, parsed sample_world (PStr "") <> Raise e) /\
  fst (sample_pull (Some ["TEMP.1"]) (PStr "") (PStr "2025-09-02") PNone)
  = Ok (Some missing_datetime_envelope) /\
  dict_get "error" missing_datetime_envelope = Some (PStr "Missing datetime values").
Proof.
  split; [reflexivity |]. split; [reflexivity |].
  split; [intros e H; discriminate H |].
  split; [vm_compute; reflexivity | reflexivity].
Qed.

(** C2, amended: for an empty or null (falsy) input the normaliser returns
    [None] without raising, and an operation whose start or end is such an
    input returns a [success: False] envelope, having issued no search and
    no pull: no default instant is substituted.  Once the authentication
    block has passed, that envelope is the one with the error "Missing
    datetime values". *)
Theorem empty_datetime_reported_missing :
  forall w names start_datetime end_datetime grid timezone
         url access_key password auth_provider ignore_ssl_errors s,
    py_truthy start_datetime = false \/ py_truthy end_datetime = false ->
    (py_truthy start_datetime = false -> parsed w start_datetime = Ok None) /\
    (py_truthy end_datetime = false -> parsed w end_datetime = Ok None) /\
    exists env s',
      call (search_and_pull_sensors w names start_datetime end_datetime grid timezone
              url access_key password auth_provider ignore_ssl_errors) s
      = (Ok (Some env), s') /\
      dict_get "success" env = Some (PBool false) /\
      (exists l, calls s' = (calls s ++ l)%list /\ forallb is_login l = true) /\
      (forall s1,
          authenticate_block w url access_key password auth_provider
            ignore_ssl_errors (set_local_traceback false s) = (Normal tt, s1) ->
          env = missing_datetime_envelope /\ s' = s1).
Proof.
  intros w names start_datetime end_datetime grid timezone
         url access_key password auth_provider ignore_ssl_errors s Hempty.
  split; [apply parsed_falsy |]. split; [apply parsed_falsy |].
  pose proof (resolve_datetimes_missing w start_datetime end_datetime timezone Hempty)
    as Hmiss.
  destruct (unresolved_datetime_outcome w names start_datetime end_datetime grid
              timezone url access_key password auth_provider ignore_ssl_errors s)
    as (env & s' & E & Hfalse & _ & Hl).
  { intros p H. rewrite Hmiss in H. discriminate H. }
  exists env, s'. split; [exact E |]. split; [exact Hfalse |]. split; [exact Hl |].
  intros s1 Hauth.
  rewrite search_and_pull_sensors_stages, Hauth, Hmiss in E.
  injection E as <- <-. split; reflexivity.
Qed.

Lemma empty_datetime_reported_missing_witness :
  parsed sample_world (PStr "") = Ok None /\
  exists env s',
    sample_pull (Some ["TEMP.1"]) (PStr "") (PStr "2025-09-02") PNone
    = (Ok (Some env), s') /\
    dict_get "success" env = Some (PBool false).
Proof.
  destruct (empty_datetime_reported_missing sample_world (Some ["TEMP.1"])
              (PStr "") (PStr "2025-09-02") (PStr "15min") PNone
              sample_url sample_key sample_password (PStr "Seeq") (PBool false)
              initial_state (or_introl eq_refl))
    as (Hstart & _ & env & s' & E & Hfalse & _).
  split; [exact (Hstart eq_refl) |].
  exists env, s'. split; [exact E | exact Hfalse].
Defined.




(** What the timezone step does with two parsed pandas timestamps. *)
Lemma timezone_resolution_cases (w : World)
    (start_datetime end_datetime timezone : pyval) (ts te : Timestamp) :
  parsed w start_datetime = Ok (Some (PdTimestamp ts)) ->
  parsed w end_datetime = Ok (Some (PdTimestamp te)) ->
  fst (resolve_datetimes w start_datetime end_datetime timezone tt)
  = if py_truthy timezone then
      match tz_localize_UTC ts, resolve_timezone w timezone, tz_localize_UTC te with
      | Ok ts', Ok zone, Ok te' =>
          Normal (PdTimestamp (with_zone zone ts'), PdTimestamp (with_zone zone te'))
      | Raise e, _, _ => Raised e
      | Ok _, Raise e, _ => Raised e
      | Ok _, Ok _, Raise e => Raised e
      end
    else
      match ts_tz ts with
      | None =>
          match tz_localize_UTC ts, tz_localize_UTC te with
          | Ok ts', Ok te' => Normal (PdTimestamp ts', PdTimestamp te')
          | Raise e, _ => Raised e
          | Ok _, Raise e => Raised e
          end
      | Some _ => Normal (PdTimestamp ts, PdTimestamp te)
      end.
Proof.
  intros Hs He. unfold resolve_datetimes. run_monad. rewrite Hs, He. simpl.
  destruct (py_truthy timezone).
  - unfold dt_tz_convert, tz_localize_UTC, tz_convert, with_zone.
    destruct (ts_tz ts); simpl; [reflexivity |].
    destruct (resolve_timezone w timezone); simpl; [| reflexivity].
    destruct (ts_tz te); reflexivity.
  - unfold tz_localize_UTC. destruct (ts_tz ts); simpl; [reflexivity |].
    destruct (ts_tz te); reflexivity.
Qed.

(** C5: a parsed instant without a timezone is meant to be localized as
    UTC when no zone is given.  With an aware start and a naive end the
    code tests the start only and leaves both as they are: the end stays
    naive and is passed so to the pull. *)
Theorem mixed_awareness_end_left_naive :
  fst (resolve_datetimes sample_world (PStr "2025-09-01T00:00:00+05:00")
         (PStr "2025-09-02") PNone tt)
  = Normal (PdTimestamp (timestamp_of_fields 2025 9 1 0 0 0 (Some plus_five)),
            PdTimestamp (timestamp_of_fields 2025 9 2 0 0 0 None)) /\
  ts_tz (timestamp_of_fields 2025 9 2 0 0 0 None) = None /\
  exists sensors start_dt,
    In (CallPull sensors start_dt
          (PdTimestamp (timestamp_of_fields 2025 9 2 0 0 0 None)) (PStr "15min"))
       (calls (snd (sample_pull (Some ["TEMP.1"]) (PStr "2025-09-01T00:00:00+05:00")
                      (PStr "2025-09-02") PNone))).
Proof.
  split; [vm_compute; reflexivity |]. split; [reflexivity |].
  eexists; eexists. vm_compute. right. right. left. reflexivity.
Qed.



(** * Further properties *)

(** ** The sanitiser, beyond the claims *)

Lemma clean_for_json_is_clean (x : pyval) : is_clean (clean_for_json x) = true.
Proof.
  induction x as [ | b | z | f | s | t | | l IH | d IH] using pyval_deep_ind;
    try reflexivity.
  - rewrite clean_for_json_float. destruct f; reflexivity.
  - simpl. destruct (ts_tz t); reflexivity.
  - rewrite clean_for_json_list. simpl.
    induction IH as [| y l Hy _ IHl]; simpl; [reflexivity |].
    rewrite Hy. exact IHl.
  - rewrite clean_for_json_dict. simpl.
    induction IH as [| kv d Hkv _ IHd]; simpl; [reflexivity |].
    rewrite Hkv. exact IHd.
Qed.

Lemma clean_for_json_fixes_clean (x : pyval) :
  is_clean x = true -> clean_for_json x = x.
Proof.
  induction x as [ | b | z | f | s | t | | l IH | d IH] using pyval_deep_ind;
    intros H; try reflexivity; try discriminate H.
  - rewrite clean_for_json_float. simpl in H. destruct (is_nan f); [discriminate | reflexivity].
  - rewrite clean_for_json_list. f_equal. simpl in H.
    induction IH as [| y l Hy _ IHl]; [reflexivity |].
    simpl in H. apply andb_prop in H. destruct H as [H1 H2].
    cbn [map]. rewrite (Hy H1), (IHl H2). reflexivity.
  - rewrite clean_for_json_dict. f_equal. simpl in H.
    induction IH as [| [k v] d Hkv _ IHd]; [reflexivity |].
    simpl in H. apply andb_prop in H. destruct H as [H1 H2].
    cbn [map fst snd]. simpl in Hkv. rewrite (Hkv H1), (IHd H2). reflexivity.
Qed.

(** X1: what the sanitiser returns holds no float NaN, no [Timestamp] and
    no [NaT] at any depth, whatever it was given. *)
Theorem clean_for_json_output_is_clean :
  forall x, is_clean (clean_for_json x) = true.
Proof. exact clean_for_json_is_clean. Qed.

(** X2: the values the sanitiser leaves as they are are exactly the values
    without NaN, [Timestamp] and [NaT]; in particular [None], booleans,
    integers, strings, the infinities and every other float pass through. *)
Theorem clean_for_json_fixed_points :
  forall x, clean_for_json x = x <-> is_clean x = true.
Proof.
  intros x. split.
  - intros H. rewrite <- H. apply clean_for_json_is_clean.
  - apply clean_for_json_fixes_clean.
Qed.

Lemma select_clean (path : list selector) :
  forall x, select path (clean_for_json x) = option_map clean_for_json (select path x).
Proof.
  induction path as [| step path IH]; intros x; [reflexivity |].
  destruct step as [n | k]; destruct x;
    try reflexivity;
    try (simpl; destruct (float_ne f f); reflexivity);
    try (simpl; destruct (ts_tz t); reflexivity).
  - rewrite clean_for_json_list. simpl. rewrite nth_error_map.
    destruct (nth_error l n) as [y |]; simpl; [apply IH | reflexivity].
  - rewrite clean_for_json_dict. simpl. rewrite dict_get_clean.
    destruct (dict_get k d) as [y |]; simpl; [apply IH | reflexivity].
Qed.

(** X3: the sanitiser keeps the shape of its input: a list keeps its
    length, a dict its keys in their order, and the value at any position
    of the output is the sanitised value at that position of the input. *)
Theorem clean_for_json_preserves_structure :
  (forall l, exists l', clean_for_json (PList l) = PList l' /\
                        List.length l' = List.length l) /\
  (forall d, exists d', clean_for_json (PDict d) = PDict d' /\
                        map fst d' = map fst d) /\
  (forall path x,
      select path (clean_for_json x) = option_map clean_for_json (select path x)).
Proof.
  split; [| split].
  - intros l. eexists. split; [apply clean_for_json_list | apply length_map].
  - intros d. eexists. split; [apply clean_for_json_dict |].
    rewrite map_map. reflexivity.
  - exact select_clean.
Qed.

(** ** The normaliser, beyond the claims *)

(** X4: [parse_excel_friendly_datetime] never raises, and it returns
    [None] exactly when its input is empty or all four strategies fail;
    the [ValueError] of its outer handler is never raised. *)
Theorem parse_excel_friendly_datetime_none :
  forall w dt_str,
    (exists r, parsed w dt_str = Ok r) /\
    (parsed w dt_str = Ok None <->
     py_truthy dt_str = false \/ all_strategies_fail w dt_str).
Proof.
  intros w dt_str. split; [apply parsed_never_raises |].
  unfold all_strategies_fail.
  destruct (py_truthy dt_str) eqn:Et.
  - rewrite (parsed_chain w dt_str Et). split.
    + intros H. right.
      destruct (pd_to_datetime w dt_str) as [t | e1]; [discriminate |].
      destruct (first_format w dt_str excel_formats) as [t |]; [discriminate |].
      destruct (result_bind (py_float w dt_str) excel_serial_to_timestamp)
        as [t | e3]; [discriminate |].
      destruct (dateutil_parse w dt_str) as [t | e4]; [discriminate |].
      eauto 8.
    + intros [H | ([e1 H1] & H2 & [e3 H3] & [e4 H4])]; [discriminate |].
      rewrite H1, H2, H3, H4. reflexivity.
  - rewrite (parsed_falsy w dt_str Et). split; auto.
Qed.

(** X5: when the flexible parse fails, a date that the month-first layout
    [%m/%d/%Y] accepts is read month-first, whatever the day-first layout
    [%d/%m/%Y] would make of it. *)
Theorem slash_date_read_month_first :
  forall w dt_str e t,
    py_truthy dt_str = true ->
    pd_to_datetime w dt_str = Raise e ->
    pd_to_datetime_format w dt_str "%m/%d/%Y" = Ok t ->
    parsed w dt_str = Ok (Some (PdTimestamp t)).
Proof.
  intros w dt_str e t Ht Hflex Hfmt.
  rewrite (parsed_chain w dt_str Ht), Hflex. simpl. rewrite Hfmt. reflexivity.
Qed.

Lemma slash_date_read_month_first_witness :
  pd_to_datetime_format layouts_world (PStr "1/2/2025") "%d/%m/%Y"
  = Ok (timestamp_of_fields 2025 2 1 0 0 0 None) /\
  parsed layouts_world (PStr "1/2/2025")
  = Ok (Some (PdTimestamp (timestamp_of_fields 2025 1 2 0 0 0 None))).
Proof.
  split; [reflexivity |].
  apply (slash_date_read_month_first layouts_world (PStr "1/2/2025")
           (mk_exn "DateParseError" "Unknown datetime string format")).
  - reflexivity.
  - reflexivity.
  - reflexivity.
Defined.

(** X6: a start that only the last-resort [dateutil] strategy can read is
    of no use: [dateutil] returns a [datetime.datetime], the timezone step
    needs [tz] or [tz_localize], and the operation ends with a
    [success: False] envelope without any search or pull. *)
Theorem dateutil_start_never_usable :
  forall w names start_datetime end_datetime grid timezone
         url access_key password auth_provider ignore_ssl_errors s e1 e3 t,
    py_truthy start_datetime = true ->
    pd_to_datetime w start_datetime = Raise e1 ->
    first_format w start_datetime excel_formats = None ->
    result_bind (py_float w start_datetime) excel_serial_to_timestamp = Raise e3 ->
    dateutil_parse w start_datetime = Ok t ->
    parsed w start_datetime = Ok (Some (PyDatetime t)) /\
    (forall p, fst (resolve_datetimes w start_datetime end_datetime timezone tt)
               <> Normal p) /\
    exists env s',
      call (search_and_pull_sensors w names start_datetime end_datetime grid timezone
              url access_key password auth_provider ignore_ssl_errors) s
      = (Ok (Some env), s') /\
      dict_get "success" env = Some (PBool false) /\
      exists l, calls s' = (calls s ++ l)%list /\ forallb is_login l = true.
Proof.
  intros w names start_datetime end_datetime grid timezone
         url access_key password auth_provider ignore_ssl_errors s e1 e3 t
         Ht H1 H2 H3 H4.
  assert (Hp : parsed w start_datetime = Ok (Some (PyDatetime t))).
  { rewrite (parsed_chain w start_datetime Ht), H1, H2, H3, H4. reflexivity. }
  assert (Hfail : forall p,
             fst (resolve_datetimes w start_datetime end_datetime timezone tt)
             <> Normal p).
  { intros p. unfold resolve_datetimes. run_monad. rewrite Hp. simpl.
    destruct (parsed w end_datetime) as [[ed |] | e]; simpl; try discriminate.
    destruct (py_truthy timezone); simpl; discriminate. }
  split; [exact Hp |]. split; [exact Hfail |].
  destruct (unresolved_datetime_outcome w names start_datetime end_datetime grid
              timezone url access_key password auth_provider ignore_ssl_errors s Hfail)
    as (env & s' & E & Hfalse & _ & Hl).
  exists env, s'. auto.
Qed.

Lemma dateutil_start_never_usable_witness :
  parsed layouts_world (PStr "1st of September 2025")
  = Ok (Some (PyDatetime (timestamp_of_fields 2025 9 1 0 0 0 None))) /\
  exists env s',
    call (search_and_pull_sensors layouts_world (Some ["TEMP.1"])
            (PStr "1st of September 2025") (PStr "1/2/2025") (PStr "15min") PNone
            sample_url sample_key sample_password (PStr "Seeq") (PBool false))
         initial_state
    = (Ok (Some env), s') /\
    dict_get "success" env = Some (PBool false).
Proof.
  destruct (dateutil_start_never_usable layouts_world (Some ["TEMP.1"])
              (PStr "1st of September 2025") (PStr "1/2/2025") (PStr "15min") PNone
              sample_url sample_key sample_password (PStr "Seeq") (PBool false)
              initial_state
              (mk_exn "DateParseError" "Unknown datetime string format")
              (ValueError "could not convert string to float")
              (timestamp_of_fields 2025 9 1 0 0 0 None)
              eq_refl eq_refl eq_refl eq_refl eq_refl)
    as (Hp & _ & env & s' & E & Hfalse & _).
  split; [exact Hp |]. exists env, s'. split; [exact E | exact Hfalse].
Defined.

(** X7: the timezone step never moves an instant.  When it succeeds on two
    pandas timestamps, both results count the same nanoseconds as the
    parsed values; with a zone argument both inputs were naive and both
    results carry the zone, so a naive reading is taken as UTC and shown in
    the zone; without one, a naive start makes both results UTC. *)
Theorem timezone_step_keeps_instant :
  forall w start_datetime end_datetime timezone ts te a b,
    parsed w start_datetime = Ok (Some (PdTimestamp ts)) ->
    parsed w end_datetime = Ok (Some (PdTimestamp te)) ->
    fst (resolve_datetimes w start_datetime end_datetime timezone tt) = Normal (a, b) ->
    exists ta tb,
      a = PdTimestamp ta /\ b = PdTimestamp tb /\
      ts_value ta = ts_value ts /\ ts_value tb = ts_value te /\
      (py_truthy timezone = true ->
       ts_tz ts = None /\ ts_tz te = None /\
       exists zone, resolve_timezone w timezone = Ok zone /\
                    ts_tz ta = Some zone /\ ts_tz tb = Some zone) /\
      (py_truthy timezone = false -> ts_tz ts = None ->
       ts_tz ta = Some tz_UTC /\ ts_tz tb = Some tz_UTC).
Proof.
  intros w start_datetime end_datetime timezone ts te a b Hs He.
  rewrite (timezone_resolution_cases w start_datetime end_datetime timezone ts te Hs He).
  unfold tz_localize_UTC, with_zone.
  destruct (py_truthy timezone).
  - destruct (ts_tz ts) eqn:Es; [discriminate |].
    destruct (resolve_timezone w timezone) as [zone | e]; [| discriminate].
    destruct (ts_tz te) eqn:Ee; [discriminate |].
    intros H. injection H as <- <-.
    eexists; eexists.
    split; [reflexivity |]. split; [reflexivity |].
    split; [reflexivity |]. split; [reflexivity |].
    split; [| intros H; discriminate H].
    intros _. split; [reflexivity |]. split; [reflexivity |].
    exists zone. auto.
  - destruct (ts_tz ts) eqn:Es.
    + intros H. injection H as <- <-.
      eexists; eexists.
      split; [reflexivity |]. split; [reflexivity |].
      split; [reflexivity |]. split; [reflexivity |].
      split; [intros H; discriminate H | intros _ H; discriminate H].
    + destruct (ts_tz te) eqn:Ee; [discriminate |].
      intros H. injection H as <- <-.
      eexists; eexists.
      split; [reflexivity |]. split; [reflexivity |].
      split; [reflexivity |]. split; [reflexivity |].
      split; [intros H; discriminate H | intros _ _; split; reflexivity].
Qed.

Lemma timezone_step_keeps_instant_witness :
  exists ta tb,
    PdTimestamp (mk_ts (ts_value (timestamp_of_fields 2025 9 1 0 0 0 None)) (Some tz_UTC))
    = PdTimestamp ta /\
    PdTimestamp (mk_ts (ts_value (timestamp_of_fields 2025 9 2 0 0 0 None)) (Some tz_UTC))
    = PdTimestamp tb /\
    ts_value ta = ts_value (timestamp_of_fields 2025 9 1 0 0 0 None) /\
    ts_value tb = ts_value (timestamp_of_fields 2025 9 2 0 0 0 None).
Proof.
  destruct (timezone_step_keeps_instant sample_world (PStr "2025-09-01")
              (PStr "2025-09-02") (PStr "UTC")
              (timestamp_of_fields 2025 9 1 0 0 0 None)
              (timestamp_of_fields 2025 9 2 0 0 0 None)
              (PdTimestamp (mk_ts (ts_value (timestamp_of_fields 2025 9 1 0 0 0 None))
                              (Some tz_UTC)))
              (PdTimestamp (mk_ts (ts_value (timestamp_of_fields 2025 9 2 0 0 0 None))
                              (Some tz_UTC)))
              eq_refl eq_refl eq_refl)
    as (ta & tb & Ha & Hb & Hva & Hvb & _).
  exists ta, tb. auto.
Defined.

(** X8: a zone argument together with a bound that already carries a
    timezone makes the operation fail: [tz_localize('UTC')] refuses the
    aware timestamp, and once authentication has passed the envelope is
    the "Datetime parsing failed" one; nothing is searched or pulled. *)
Theorem zone_with_aware_bound_rejected :
  forall w names start_datetime end_datetime grid timezone
         url access_key password auth_provider ignore_ssl_errors s s1 ts te,
    parsed w start_datetime = Ok (Some (PdTimestamp ts)) ->
    parsed w end_datetime = Ok (Some (PdTimestamp te)) ->
    py_truthy timezone = true ->
    ts_tz ts <> None \/ ts_tz te <> None ->
    authenticate_block w url access_key password auth_provider ignore_ssl_errors
      (set_local_traceback false s) = (Normal tt, s1) ->
    exists e,
      fst (resolve_datetimes w start_datetime end_datetime timezone tt) = Raised e /\
      fst (call (search_and_pull_sensors w names start_datetime end_datetime grid
                   timezone url access_key password auth_provider ignore_ssl_errors) s)
      = Ok (Some (invalid_datetime_envelope e)) /\
      calls (snd (call (search_and_pull_sensors w names start_datetime end_datetime grid
                          timezone url access_key password auth_provider
                          ignore_ssl_errors) s))
      = calls s1.
Proof.
  intros w names start_datetime end_datetime grid timezone
         url access_key password auth_provider ignore_ssl_errors s s1 ts te
         Hs He Hz Haware Hauth.
  assert (Hr : exists e,
             fst (resolve_datetimes w start_datetime end_datetime timezone tt)
             = Raised e).
  { rewrite (timezone_resolution_cases w start_datetime end_datetime timezone ts te
               Hs He), Hz.
    unfold tz_localize_UTC.
    destruct (ts_tz ts) eqn:Es; [eauto |].
    destruct (resolve_timezone w timezone); [| eauto].
    destruct (ts_tz te) eqn:Ee; [eauto |].
    destruct Haware as [H | H]; exfalso; apply H; reflexivity. }
  destruct Hr as [e Hr]. exists e. split; [exact Hr |].
  rewrite search_and_pull_sensors_stages, Hauth, Hr. split; reflexivity.
Qed.

Lemma zone_with_aware_bound_rejected_witness :
  exists e,
    fst (sample_pull (Some ["TEMP.1"]) (PStr "2025-09-01T00:00:00+05:00")
           (PStr "2025-09-02") (PStr "UTC"))
    = Ok (Some (invalid_datetime_envelope e)).
Proof.
  destruct (zone_with_aware_bound_rejected sample_world (Some ["TEMP.1"])
              (PStr "2025-09-01T00:00:00+05:00") (PStr "2025-09-02") (PStr "15min")
              (PStr "UTC") sample_url sample_key sample_password (PStr "Seeq")
              (PBool false) initial_state
              (snd (authenticate_block sample_world sample_url sample_key
                      sample_password (PStr "Seeq") (PBool false)
                      (set_local_traceback false initial_state)))
              (timestamp_of_fields 2025 9 1 0 0 0 (Some plus_five))
              (timestamp_of_fields 2025 9 2 0 0 0 None)
              eq_refl eq_refl eq_refl)
    as (e & _ & Henv & _).
  - left. discriminate.
  - reflexivity.
  - exists e. exact Henv.
Defined.

(** ** Authentication, beyond the claims *)

Section Authentication.

Variable w : World.

(** [authenticate_seeq], path by path, when the compatibility option does
    not stop it. *)
Lemma authenticate_seeq_run
    (url access_key password auth_provider ignore_ssl_errors : pyval) (s : state) :
  compatibility_harmless w ->
  let flag := coerce_ignore_ssl_errors ignore_ssl_errors in
  let s0 := log_call (CallLogin url access_key password flag) s in
  call (authenticate_seeq w url access_key password auth_provider ignore_ssl_errors) s
  = match spy_login w url access_key password flag with
    | Ok (Some u) =>
        (Ok (Some (auth_success_envelope u url)),
         set_auth_state (mk_auth true url access_key password auth_provider flag)
           (set_spy_user (Some u) s0))
    | Ok None => (Ok (Some auth_no_user_envelope), set_spy_user None s0)
    | Raise e => (Ok (Some (auth_exception_envelope e)), s0)
    end.
Proof.
  intros Hattr. cbv zeta.
  unfold authenticate_seeq, login. run_monad.
  destruct (spy_set_compatibility w) as [[] | e0] eqn:Ec;
    [| rewrite (Hattr e0 Ec)];
    destruct (spy_set_server w url) as [[] | e1];
    destruct (spy_login w url access_key password
                (coerce_ignore_ssl_errors ignore_ssl_errors))
      as [[u |] | e2];
    reflexivity.
Qed.

(** What a call of [authenticate_seeq] does to the process state. *)
Lemma authenticate_seeq_effect
    (url access_key password auth_provider ignore_ssl_errors : pyval) (s : state) :
  exists env s',
    call (authenticate_seeq w url access_key password auth_provider
            ignore_ssl_errors) s = (Ok (Some env), s') /\
    ((dict_get "success" env = Some (PBool true) /\
      exists u,
        spy_login w url access_key password
          (coerce_ignore_ssl_errors ignore_ssl_errors) = Ok (Some u) /\
        env = auth_success_envelope u url /\
        spy_user s' = Some u /\
        auth_state s'
        = mk_auth true url access_key password auth_provider
            (coerce_ignore_ssl_errors ignore_ssl_errors)) \/
     (dict_get "success" env = Some (PBool false) /\
      dict_has "error" env = true /\
      auth_state s' = auth_state s)).
Proof.
  unfold authenticate_seeq, login. run_monad.
  destruct (spy_set_compatibility w) as [[] | e0];
    [| destruct (is_instance e0 "AttributeError")];
    try (destruct (spy_set_server w url) as [[] | e1]);
    try (destruct (spy_login w url access_key password
                     (coerce_ignore_ssl_errors ignore_ssl_errors))
           as [[u |] | e2] eqn:El);
    simpl;
    (eexists; eexists; split; [reflexivity |]);
    first [ right; repeat split; reflexivity
          | left; split; [reflexivity |]; exists u; repeat split; reflexivity ].
Qed.

End Authentication.


Lemma check_auth_status_run (s : state) :
  exists env,
    call check_auth_status s = (Ok (Some env), s) /\
    dict_get "success" env = Some (PBool true) /\
    dict_get "isAuthenticated" env
    = Some (PBool (match spy_user s with
                   | Some _ => is_authenticated (auth_state s)
                   | None => false
                   end)) /\
    (forall u, spy_user s = Some u -> is_authenticated (auth_state s) = true ->
               dict_get "user" env = Some (PStr u)).
Proof.
  unfold check_auth_status. run_monad.
  destruct (spy_user s) as [u |]; [destruct (is_authenticated (auth_state s)) |];
    (eexists; split; [reflexivity |]);
    (split; [reflexivity |]); (split; [reflexivity |]);
    intros u' Hu Ha; try discriminate; injection Hu as <-; reflexivity.
Qed.

(** X10: [check_auth_status] only reads: it leaves the state as it is and
    always answers [success: True]; [isAuthenticated] is true exactly when
    [spy.user] is set and [auth_state] says authenticated, so a user
    without the flag counts as not authenticated. *)
Theorem check_auth_status_reads_only :
  forall s,
  exists env,
    call check_auth_status s = (Ok (Some env), s) /\
    dict_get "success" env = Some (PBool true) /\
    (exists b, dict_get "isAuthenticated" env = Some (PBool b) /\
               (b = true <->
                (exists u, spy_user s = Some u) /\
                is_authenticated (auth_state s) = true)).
Proof.
  intros s. destruct (check_auth_status_run s) as (env & E & Hs & Ha & _).
  exists env. split; [exact E |]. split; [exact Hs |].
  eexists. split; [exact Ha |].
  destruct (spy_user s) as [u |].
  - split; [intros H; split; [eauto | exact H] | intros [_ H]; exact H].
  - split; [discriminate | intros [[u Hu] _]; discriminate Hu].
Qed.

(** X11: after a successful [authenticate_seeq], [check_auth_status]
    reports the same user as authenticated. *)
Theorem check_auth_status_after_login :
  forall w url access_key password auth_provider ignore_ssl_errors s env s',
    call (authenticate_seeq w url access_key password auth_provider
            ignore_ssl_errors) s = (Ok (Some env), s') ->
    dict_get "success" env = Some (PBool true) ->
    exists env',
      call check_auth_status s' = (Ok (Some env'), s') /\
      dict_get "isAuthenticated" env' = Some (PBool true) /\
      dict_get "user" env' = dict_get "user" env.
Proof.
  intros w url access_key password auth_provider ignore_ssl_errors s env s' E Hs.
  destruct (authenticate_seeq_effect w url access_key password auth_provider
              ignore_ssl_errors s)
    as (env0 & s0 & E0 & Hcase).
  rewrite E in E0. injection E0 as <- <-.
  destruct Hcase as [[_ (u & _ & -> & Hu & Ha)] | [Hf _]]; [| congruence].
  destruct (check_auth_status_run s') as (env' & E' & _ & Hauth & Huser).
  exists env'. split; [exact E' |].
  rewrite Hu, Ha in Hauth. split; [exact Hauth |].
  rewrite (Huser u Hu); [reflexivity | rewrite Ha; reflexivity].
Qed.

Lemma check_auth_status_after_login_witness :
  exists env',
    call check_auth_status
      (snd (call (authenticate_seeq sample_world sample_url sample_key sample_password
                    (PStr "Seeq") (PBool false)) initial_state))
    = (Ok (Some env'),
       snd (call (authenticate_seeq sample_world sample_url sample_key sample_password
                    (PStr "Seeq") (PBool false)) initial_state)) /\
    dict_get "isAuthenticated" env' = Some (PBool true) /\
    dict_get "user" env' = Some (PStr "analyst").
Proof.
  apply (check_auth_status_after_login sample_world sample_url sample_key
           sample_password (PStr "Seeq") (PBool false) initial_state
           (auth_success_envelope "analyst" sample_url)).
  - reflexivity.
  - reflexivity.
Defined.

Section Credentials.

Variable w : World.

Lemma authenticate_block_missing
    (url access_key password auth_provider ignore_ssl_errors : pyval) (s : state) :
  credentials_given url access_key password = false ->
  authenticate_block w url access_key password auth_provider ignore_ssl_errors s
  = (Returned missing_credentials_envelope, s).
Proof.
  unfold credentials_given, authenticate_block. intros ->. reflexivity.
Qed.

(** The authentication block when the login does not go through. *)
Lemma authenticate_block_refused
    (url access_key password auth_provider ignore_ssl_errors : pyval) (s : state) :
  compatibility_harmless w ->
  credentials_given url access_key password = true ->
  let flag := coerce_ignore_ssl_errors ignore_ssl_errors in
  let s0 := log_call (CallLogin url access_key password flag) s in
  match spy_login w url access_key password flag with
  | Ok (Some u) =>
      authenticate_block w url access_key password auth_provider ignore_ssl_errors s
      = (Normal tt,
         set_auth_state (mk_auth true url access_key password auth_provider flag)
           (set_spy_user (Some u) s0))
  | Ok None =>
      authenticate_block w url access_key password auth_provider ignore_ssl_errors s
      = (Returned (auth_required_envelope "No user returned from SPy"
                     auth_no_user_envelope),
         set_spy_user None s0)
  | Raise e =>
      authenticate_block w url access_key password auth_provider ignore_ssl_errors s
      = (Returned (auth_required_envelope (exn_msg e) (auth_exception_envelope e)), s0)
  end.
Proof.
  intros Hattr Hcred. cbv zeta.
  pose proof (authenticate_seeq_run w url access_key password auth_provider
                ignore_ssl_errors s Hattr) as Hrun.
  cbv zeta in Hrun.
  unfold authenticate_block. unfold credentials_given in Hcred. rewrite Hcred.
  destruct (spy_login w url access_key password
              (coerce_ignore_ssl_errors ignore_ssl_errors)) as [[u |] | e];
    unfold bind at 1, invoke; rewrite Hrun; reflexivity.
Qed.

End Credentials.

(** X12: when the url, the access key or the password is missing or empty,
    both search operations answer "Missing credentials" at once: no login,
    search or pull is issued and neither [spy.user] nor [auth_state]
    changes. *)
Theorem missing_credentials_stop_before_any_call :
  forall w names start_datetime end_datetime grid timezone
         url access_key password auth_provider ignore_ssl_errors s,
    credentials_given url access_key password = false ->
    call (search_sensors_only w names url access_key password auth_provider
            ignore_ssl_errors) s
    = (Ok (Some missing_credentials_envelope), s) /\
    let r := call (search_and_pull_sensors w names start_datetime end_datetime grid
                     timezone url access_key password auth_provider
                     ignore_ssl_errors) s in
    fst r = Ok (Some missing_credentials_envelope) /\
    calls (snd r) = calls s /\
    spy_user (snd r) = spy_user s /\
    auth_state (snd r) = auth_state s.
Proof.
  intros w names start_datetime end_datetime grid timezone
         url access_key password auth_provider ignore_ssl_errors s Hcred.
  split.
  - unfold search_sensors_only, call, try_except, bind at 1.
    rewrite (authenticate_block_missing w _ _ _ _ _ s Hcred). reflexivity.
  - cbv zeta. rewrite search_and_pull_sensors_stages.
    rewrite (authenticate_block_missing w _ _ _ _ _ _ Hcred).
    repeat split.
Qed.

Lemma missing_credentials_stop_before_any_call_witness :
  call (search_sensors_only sample_world (Some ["TEMP.1"]) PNone sample_key
          sample_password (PStr "Seeq") (PBool false)) initial_state
  = (Ok (Some missing_credentials_envelope), initial_state).
Proof.
  apply (proj1 (missing_credentials_stop_before_any_call sample_world (Some ["TEMP.1"])
                  (PStr "2025-09-01") (PStr "2025-09-02") (PStr "15min") PNone
                  PNone sample_key sample_password (PStr "Seeq") (PBool false)
                  initial_state eq_refl)).
Defined.

(** X13: when the login raises, both search operations stop after that
    one call and answer "Authentication required"; the envelope quotes the
    exception in its message and carries the envelope of
    [authenticate_seeq], traceback included, under [auth_details]. *)
Theorem refused_login_reported_as_authentication_required :
  forall w names start_datetime end_datetime grid timezone
         url access_key password auth_provider ignore_ssl_errors s e,
    compatibility_harmless w ->
    credentials_given url access_key password = true ->
    spy_login w url access_key password (coerce_ignore_ssl_errors ignore_ssl_errors)
    = Raise e ->
    let login_call :=
      CallLogin url access_key password (coerce_ignore_ssl_errors ignore_ssl_errors) in
    let envelope := auth_required_envelope (exn_msg e) (auth_exception_envelope e) in
    call (search_sensors_only w names url access_key password auth_provider
            ignore_ssl_errors) s
    = (Ok (Some envelope), log_call login_call s) /\
    let r := call (search_and_pull_sensors w names start_datetime end_datetime grid
                     timezone url access_key password auth_provider
                     ignore_ssl_errors) s in
    fst r = Ok (Some envelope) /\
    calls (snd r) = (calls s ++ [login_call])%list.
Proof.
  intros w names start_datetime end_datetime grid timezone
         url access_key password auth_provider ignore_ssl_errors s e Hattr Hcred Hlogin.
  cbv zeta. split.
  - pose proof (authenticate_block_refused w url access_key password auth_provider
                  ignore_ssl_errors s Hattr Hcred) as Hb.
    cbv zeta in Hb. rewrite Hlogin in Hb.
    unfold search_sensors_only, call, try_except, bind at 1. rewrite Hb. reflexivity.
  - pose proof (authenticate_block_refused w url access_key password auth_provider
                  ignore_ssl_errors (set_local_traceback false s) Hattr Hcred) as Hb.
    cbv zeta in Hb. rewrite Hlogin in Hb.
    rewrite search_and_pull_sensors_stages, Hb. split; reflexivity.
Qed.

Lemma refused_login_reported_as_authentication_required_witness :
  fst (call (search_sensors_only refusing_world (Some ["TEMP.1"]) sample_url sample_key
               sample_password (PStr "Seeq") (PBool false)) initial_state)
  = Ok (Some (auth_required_envelope "(401) Unauthorized"
                (auth_exception_envelope (mk_exn "ApiException" "(401) Unauthorized")))).
Proof.
  pose proof (refused_login_reported_as_authentication_required refusing_world
                (Some ["TEMP.1"]) (PStr "2025-09-01") (PStr "2025-09-02")
                (PStr "15min") PNone sample_url sample_key sample_password
                (PStr "Seeq") (PBool false) initial_state
                (mk_exn "ApiException" "(401) Unauthorized")) as H.
  cbv zeta in H.
  destruct H as [H _].
  - intros e He. injection He as <-. reflexivity.
  - reflexivity.
  - reflexivity.
  - rewrite H. reflexivity.
Defined.

(** ** The searches, beyond the claims *)

Section Searches.

Variable w : World.

Lemma authenticate_block_passes
    (url access_key password auth_provider ignore_ssl_errors : pyval) (s : state)
    (u : string) :
  compatibility_harmless w ->
  credentials_given url access_key password = true ->
  spy_login w url access_key password (coerce_ignore_ssl_errors ignore_ssl_errors)
  = Ok (Some u) ->
  authenticate_block w url access_key password auth_provider ignore_ssl_errors s
  = (Normal tt,
     logged_in url access_key password auth_provider
       (coerce_ignore_ssl_errors ignore_ssl_errors) u s).
Proof.
  intros Hattr Hcred Hlogin.
  pose proof (authenticate_block_refused w url access_key password auth_provider
                ignore_ssl_errors s Hattr Hcred) as Hb.
  cbv zeta in Hb. rewrite Hlogin in Hb. exact Hb.
Qed.

Lemma search_loop_run (names : list string) (s : state) :
  search_loop (R := pydict) w (Some names) s
  = (Normal (map (search_frame w) names), log_calls (map CallSearch names) s).
Proof.
  unfold search_loop, iterate, bind, ret. rewrite for_each_search. reflexivity.
Qed.

Lemma search_frame_nonempty (n : string) : search_frame w n <> [].
Proof.
  unfold search_frame.
  destruct (spy_search w n) as [[| r rs] | e]; simpl; discriminate.
Qed.

(** A row of a search frame is found again in [combined_results], cell by
    cell. *)
Lemma combined_results_row (names : list string) (n : string) (r0 : pydict) :
  In n names -> In r0 (search_frame w n) ->
  exists row,
    In row (combined_results_of w names) /\
    (forall c v, dict_get c r0 = Some v -> dict_get c row = Some v) /\
    (forall c, dict_get c r0 = None ->
               In c (frame_columns (List.concat (map (search_frame w) names))) ->
               dict_get c row = Some NaN).
Proof.
  intros Hn Hr0.
  assert (Hrows : In r0 (List.concat (map (search_frame w) names))).
  { apply in_concat. exists (search_frame w n). split; [apply in_map; exact Hn | exact Hr0]. }
  exists (reindex (frame_columns (List.concat (map (search_frame w) names))) r0).
  split; [| split].
  - unfold combined_results_of, pd_concat. apply in_map. exact Hrows.
  - intros c v Hc. rewrite dict_get_reindex; [rewrite Hc; reflexivity |].
    unfold frame_columns. apply unique_first_keeps; [| reflexivity].
    apply in_concat. exists (map fst r0). split; [apply in_map; exact Hrows |].
    exact (dict_get_key _ _ _ Hc).
  - intros c Hc Hcol. rewrite dict_get_reindex; [rewrite Hc; reflexivity | exact Hcol].
Qed.

Lemma concat_length_ge {X} (frames : list (list X)) :
  (forall f, In f frames -> f <> []) ->
  (List.length frames <= List.length (List.concat frames))%nat.
Proof.
  induction frames as [| f frames IH]; intros H; simpl; [lia |].
  rewrite length_app.
  assert (Hf : f <> []) by (apply H; left; reflexivity).
  assert (IH' : (List.length frames <= List.length (List.concat frames))%nat)
    by (apply IH; intros g Hg; apply H; right; exact Hg).
  destruct f; [contradiction | simpl; lia].
Qed.

Lemma dict_get_set_other (k k' : string) (v : pyval) (d : pydict) :
  String.eqb k k' = false -> dict_get k (dict_set k' v d) = dict_get k d.
Proof.
  intros Hk. induction d as [| [k0 v0] d IH]; simpl.
  - rewrite Hk. reflexivity.
  - destruct (String.eqb k' k0) eqn:E; simpl.
    + apply String.eqb_eq in E. subst k0. rewrite Hk. reflexivity.
    + destruct (String.eqb k k0); [reflexivity | exact IH].
Qed.

Lemma has_nan_cell (c : string) (row : pydict) :
  dict_get c row = Some NaN -> has_nan (PDict row) = true.
Proof.
  simpl. induction row as [| [k v] row IH]; simpl; [discriminate |].
  destruct (String.eqb c k).
  - intros H. injection H as ->. reflexivity.
  - intros H. rewrite (IH H). apply orb_true_r.
Qed.

Lemma has_nan_records (rows : list pydict) (row : pydict) :
  In row rows -> has_nan (PDict row) = true -> has_nan (to_records rows) = true.
Proof.
  intros Hin Hnan. unfold to_records. simpl. apply existsb_exists.
  exists (PDict row). split; [apply in_map; exact Hin | exact Hnan].
Qed.

(** [search_sensors_only] after a login that went through. *)
Lemma search_sensors_only_run (names : option (list string))
    (url access_key password auth_provider ignore_ssl_errors : pyval) (s : state)
    (u : string) :
  compatibility_harmless w ->
  credentials_given url access_key password = true ->
  spy_login w url access_key password (coerce_ignore_ssl_errors ignore_ssl_errors)
  = Ok (Some u) ->
  let s1 := logged_in url access_key password auth_provider
              (coerce_ignore_ssl_errors ignore_ssl_errors) u s in
  call (search_sensors_only w names url access_key password auth_provider
          ignore_ssl_errors) s
  = match names with
    | Some [] => (Ok (Some no_search_results_envelope), s1)
    | Some requested =>
        (Ok (Some (search_completed_envelope w requested)),
         log_calls (map CallSearch requested) s1)
    | None =>
        (Ok (Some (search_exception_envelope
                     (TypeError "'NoneType' object is not iterable"))), s1)
    end.
Proof.
  intros Hattr Hcred Hlogin. cbv zeta.
  unfold search_sensors_only, call, try_except, bind at 1.
  rewrite (authenticate_block_passes url access_key password auth_provider
             ignore_ssl_errors s u Hattr Hcred Hlogin).
  destruct names as [[| n requested] |].
  - unfold bind at 1. rewrite search_loop_run. rewrite log_calls_nil. reflexivity.
  - unfold bind at 1. rewrite search_loop_run. reflexivity.
  - reflexivity.
Qed.

End Searches.

(** X14: once the login has gone through, [search_sensors_only] issues
    exactly one search per requested name, in the order of the request,
    whatever the individual searches do.  A non-empty request is answered
    with [success: True], the combined records and the number of requested
    names; an empty one with "No search results" and no search at all; a
    null one with an envelope that quotes the [TypeError]. *)
Theorem search_sensors_only_searches_every_name :
  forall w names url access_key password auth_provider ignore_ssl_errors s u,
    compatibility_harmless w ->
    credentials_given url access_key password = true ->
    spy_login w url access_key password (coerce_ignore_ssl_errors ignore_ssl_errors)
    = Ok (Some u) ->
    let login_call :=
      CallLogin url access_key password (coerce_ignore_ssl_errors ignore_ssl_errors) in
    let r := call (search_sensors_only w names url access_key password auth_provider
                     ignore_ssl_errors) s in
    match names with
    | Some [] =>
        fst r = Ok (Some no_search_results_envelope) /\
        calls (snd r) = (calls s ++ [login_call])%list
    | Some requested =>
        fst r = Ok (Some (search_completed_envelope w requested)) /\
        calls (snd r) = (calls s ++ login_call :: map CallSearch requested)%list
    | None =>
        fst r = Ok (Some (search_exception_envelope
                            (TypeError "'NoneType' object is not iterable"))) /\
        calls (snd r) = (calls s ++ [login_call])%list
    end.
Proof.
  intros w names url access_key password auth_provider ignore_ssl_errors s u
         Hattr Hcred Hlogin.
  cbv zeta.
  rewrite (search_sensors_only_run w names url access_key password auth_provider
             ignore_ssl_errors s u Hattr Hcred Hlogin).
  destruct names as [[| n requested] |].
  - split; reflexivity.
  - split; [reflexivity |].
    unfold logged_in, log_calls, log_call. cbn [snd calls set_auth_state set_spy_user].
    rewrite <- app_assoc. reflexivity.
  - split; reflexivity.
Qed.

Lemma search_sensors_only_searches_every_name_witness :
  calls (snd (call (search_sensors_only sample_world (Some ["TEMP.1"; "NOPE"; "BROKEN"])
                      sample_url sample_key sample_password (PStr "Seeq") (PBool false))
                initial_state))
  = [CallLogin sample_url sample_key sample_password false;
     CallSearch "TEMP.1"; CallSearch "NOPE"; CallSearch "BROKEN"].
Proof.
  apply (proj2 (search_sensors_only_searches_every_name sample_world
                  (Some ["TEMP.1"; "NOPE"; "BROKEN"]) sample_url sample_key
                  sample_password (PStr "Seeq") (PBool false) initial_state "analyst"
                  ltac:(intros e H; discriminate H) eq_refl eq_refl)).
Defined.

(** X15: every requested name is present in the combined search records.
    A name whose search found nothing is there as one placeholder row with
    a null ID and the status "Not Found"; a name whose search raised, with
    a null ID and the status "Search Error: " followed by the message.
    There are at least as many records as requested names. *)
Theorem every_requested_name_has_a_record :
  forall w names n,
    In n names ->
    (exists row,
        In row (combined_results_of w names) /\
        original_name row = Some (PStr n) /\
        match spy_search w n with
        | Ok [] =>
            dict_get "Name" row = Some (PStr n) /\
            dict_get "ID" row = Some PNone /\
            dict_get "Status" row = Some (PStr "Not Found")
        | Ok (_ :: _) => True
        | Raise e =>
            dict_get "Name" row = Some (PStr n) /\
            dict_get "ID" row = Some PNone /\
            dict_get "Status" row = Some (PStr ("Search Error: " ++ exn_msg e))
        end) /\
    (List.length names <= List.length (combined_results_of w names))%nat.
Proof.
  intros w names n Hn. split.
  - assert (Hex : exists r0, In r0 (search_frame w n)).
    { destruct (search_frame w n) as [| r0 rest] eqn:E;
        [exfalso; exact (search_frame_nonempty w n E) | exists r0; left; reflexivity]. }
    unfold search_frame in Hex.
    destruct (spy_search w n) as [[| r rs] | e] eqn:Es.
    + destruct (combined_results_row w names n
                  (hd [] (placeholder n "Not Found")) Hn) as (row & Hin & Hcell & _).
      { unfold search_frame. rewrite Es. left. reflexivity. }
      exists row. split; [exact Hin |].
      split; [apply Hcell; reflexivity |].
      repeat split; apply Hcell; reflexivity.
    + destruct Hex as [r0 Hr0].
      destruct (combined_results_row w names n r0 Hn) as (row & Hin & Hcell & _).
      { unfold search_frame. rewrite Es. exact Hr0. }
      exists row. split; [exact Hin |]. split; [| exact I].
      apply Hcell. apply (search_frame_named w n r0).
      unfold search_frame. rewrite Es. exact Hr0.
    + destruct (combined_results_row w names n
                  (hd [] (placeholder n ("Search Error: " ++ exn_msg e))) Hn)
        as (row & Hin & Hcell & _).
      { unfold search_frame. rewrite Es. left. reflexivity. }
      exists row. split; [exact Hin |].
      split; [apply Hcell; reflexivity |].
      repeat split; apply Hcell; reflexivity.
  - unfold combined_results_of, pd_concat. rewrite length_map.
    rewrite <- (length_map (search_frame w) names) at 1.
    apply concat_length_ge. intros f Hf.
    apply in_map_iff in Hf. destruct Hf as [m [<- _]]. apply search_frame_nonempty.
Qed.

Lemma every_requested_name_has_a_record_witness :
  exists row,
    In row (combined_results_of sample_world ["TEMP.1"; "NOPE"; "BROKEN"]) /\
    original_name row = Some (PStr "BROKEN") /\
    dict_get "Name" row = Some (PStr "BROKEN") /\
    dict_get "ID" row = Some PNone /\
    dict_get "Status" row = Some (PStr "Search Error: (500) Server Error").
Proof.
  destruct (every_requested_name_has_a_record sample_world
              ["TEMP.1"; "NOPE"; "BROKEN"] "BROKEN")
    as [(row & Hin & Hname & Hcells) _].
  - right. right. left. reflexivity.
  - exists row. split; [exact Hin |]. split; [exact Hname | exact Hcells].
Defined.

(** X16: [search_sensors_only] returns the combined records as they are,
    without sanitising them.  When one requested name is found, with rows
    that have no [Status] column, and another is not, the found rows get a
    NaN in [Status], and that NaN is in the [search_results] of the
    returned envelope. *)
Theorem search_sensors_only_returns_nan_status :
  forall w names url access_key password auth_provider ignore_ssl_errors s u
         found missing r rs,
    compatibility_harmless w ->
    credentials_given url access_key password = true ->
    spy_login w url access_key password (coerce_ignore_ssl_errors ignore_ssl_errors)
    = Ok (Some u) ->
    In found names -> In missing names ->
    spy_search w found = Ok (r :: rs) ->
    dict_get "Status" r = None ->
    not_found w missing ->
    exists env records,
      fst (call (search_sensors_only w (Some names) url access_key password
                   auth_provider ignore_ssl_errors) s) = Ok (Some env) /\
      dict_get "success" env = Some (PBool true) /\
      dict_get "search_results" env = Some records /\
      has_nan records = true.
Proof.
  intros w names url access_key password auth_provider ignore_ssl_errors s u
         found missing r rs Hattr Hcred Hlogin Hfound Hmissing Hsearch Hstatus Hnot.
  pose proof (search_sensors_only_run w (Some names) url access_key
                password auth_provider ignore_ssl_errors s u Hattr Hcred Hlogin) as Hrun.
  cbv zeta in Hrun.
  destruct names as [| n0 names0]; [contradiction |].
  exists (search_completed_envelope w (n0 :: names0)).
  eexists. split; [rewrite Hrun; reflexivity |].
  split; [reflexivity |]. split; [reflexivity |].
  set (names := n0 :: names0) in *.
  (* the placeholder of the missing name brings the Status column *)
  assert (Hcol : In "Status"
                   (frame_columns (List.concat (map (search_frame w) names)))).
  { unfold frame_columns. apply unique_first_keeps; [| reflexivity].
    apply in_concat.
    assert (Hp : exists status,
               In (hd [] (placeholder missing status)) (search_frame w missing)).
    { unfold search_frame.
      destruct Hnot as [-> | [e ->]]; eexists; left; reflexivity. }
    destruct Hp as [status Hp].
    exists (map fst (hd [] (placeholder missing status))). split.
    - apply in_map. apply in_concat. exists (search_frame w missing).
      split; [apply in_map; exact Hmissing | exact Hp].
    - simpl. auto 6. }
  destruct (combined_results_row w names found
              (dict_set "Original_Name" (PStr found) r) Hfound)
    as (row & Hin & _ & Hnan).
  { unfold search_frame. rewrite Hsearch. left. reflexivity. }
  apply (has_nan_records _ row Hin).
  apply (has_nan_cell "Status").
  apply Hnan; [| exact Hcol].
  rewrite dict_get_set_other; [exact Hstatus | reflexivity].
Qed.

Lemma search_sensors_only_returns_nan_status_witness :
  exists env records,
    fst (call (search_sensors_only sample_world (Some ["TEMP.1"; "NOPE"]) sample_url
                 sample_key sample_password (PStr "Seeq") (PBool false))
           initial_state) = Ok (Some env) /\
    dict_get "success" env = Some (PBool true) /\
    dict_get "search_results" env = Some records /\
    has_nan records = true.
Proof.
  apply (search_sensors_only_returns_nan_status sample_world ["TEMP.1"; "NOPE"]
           sample_url sample_key sample_password (PStr "Seeq") (PBool false)
           initial_state "analyst" "TEMP.1" "NOPE"
           [("Name", PStr "TEMP.1"); ("ID", PStr "0EF1"); ("Type", PStr "StoredSignal")]
           [[("Name", PStr "TEMP.1 (raw)"); ("ID", PStr "0EF2");
             ("Type", PStr "StoredSignal")]]).
  - intros e H. discriminate H.
  - reflexivity.
  - reflexivity.
  - left. reflexivity.
  - right. left. reflexivity.
  - reflexivity.
  - reflexivity.
  - left. reflexivity.
Defined.

(** X17: [authenticate_seeq], [check_auth_status], [search_sensors_only],
    [test_connection] and [get_server_info] never raise: for every input,
    state and behaviour of the client they return an envelope with a
    boolean [success], and [error] or [traceback] only next to
    [success: False]. *)
Theorem other_operations_return_envelopes :
  forall w names url access_key password auth_provider ignore_ssl_errors s,
    (exists env s',
        call (authenticate_seeq w url access_key password auth_provider
                ignore_ssl_errors) s = (Ok (Some env), s') /\ envelope_ok env) /\
    (exists env s', call check_auth_status s = (Ok (Some env), s') /\ envelope_ok env) /\
    (exists env s',
        call (search_sensors_only w names url access_key password auth_provider
                ignore_ssl_errors) s = (Ok (Some env), s') /\ envelope_ok env) /\
    (exists env s', call (test_connection url) s = (Ok (Some env), s') /\
                    envelope_ok env) /\
    (exists env s', call (get_server_info url) s = (Ok (Some env), s') /\
                    envelope_ok env).
Proof.
  intros w names url access_key password auth_provider ignore_ssl_errors s.
  split.
  { destruct (authenticate_seeq_returns w url access_key password auth_provider
                ignore_ssl_errors s) as (env & s' & E & Hok & _).
    exists env, s'. unfold call. rewrite E. split; [reflexivity | exact Hok]. }
  split; [apply check_auth_status_returns |].
  split; [apply search_sensors_only_returns |].
  split; [apply test_connection_returns | apply get_server_info_returns].
Qed.

(** ** Search and pull, beyond the claims *)

Section Pull.

Variable w : World.

(** The function from the searches on, for a list of names. *)
Lemma search_and_pull_block_run (requested : list string)
    (start_dt end_dt : dtobj) (start_datetime end_datetime grid url : pyval)
    (s1 : state) :
  local_traceback s1 = false ->
  let combined := combined_results_of w requested in
  let s2 := log_calls (map CallSearch requested) s1 in
  call (try_except (search_and_pull_block w (Some requested) start_dt end_dt
                      start_datetime end_datetime grid url) outer_handler) s1
  = match requested with
    | [] => (Ok (Some no_sensors_envelope), s2)
    | _ :: _ =>
        match filter_notna "ID" combined with
        | Raise e =>
            (Raise (UnboundLocalError
                      "cannot access local variable 'traceback' where it is not associated with a value"),
             s2)
        | Ok [] => (Ok (Some (no_valid_sensors_envelope combined)), s2)
        | Ok (row :: rest) =>
            let kept := drop_duplicates "Original_Name" (row :: rest) in
            let s3 := log_call (CallPull kept start_dt end_dt grid) s2 in
            match spy_pull w kept start_dt end_dt grid with
            | Ok data_df =>
                (Ok (Some (pull_success_envelope w combined kept data_df
                             start_datetime end_datetime)), s3)
            | Raise e =>
                (Ok (Some (pull_failure_envelope combined e)),
                 set_local_traceback true s3)
            end
        end
    end.
Proof.
  intros Htb. cbv zeta.
  unfold search_and_pull_block, call.
  assert (Hset : forall s,
             (if py_truthy url
              then try_except (lift (spy_set_server w url)) (fun _ => ret tt)
              else ret tt) s = (Normal tt, s) :> outcome pydict unit * state).
  { intros s. destruct (py_truthy url); [| reflexivity].
    unfold try_except, lift, ret. destruct (spy_set_server w url) as [[] |]; reflexivity. }
  unfold try_except at 1, bind at 1. rewrite Hset.
  unfold bind at 1. rewrite search_loop_run.
  fold (combined_results_of w requested).
  destruct requested as [| n requested]; [reflexivity |].
  set (names := n :: requested) in *.
  change (nonempty (map (search_frame w) names)) with true. cbv iota.
  unfold bind at 1, ret at 1, bind at 1, lift at 1.
  destruct (filter_notna "ID" (combined_results_of w names)) as [[| row rest] | e].
  - reflexivity.
  - simpl frame_empty. cbv iota.
    unfold bind at 1, ret at 1, pull_block, try_except, bind at 1, modify, bind at 1, lift.
    destruct (spy_pull w (drop_duplicates "Original_Name" (row :: rest))
                start_dt end_dt grid) as [data_df | e]; reflexivity.
  - unfold outer_handler, bind, gets. unfold log_calls at 1. cbn [local_traceback].
    rewrite Htb. reflexivity.
Qed.


Lemma reindex_keys (columns : list string) (row : pydict) :
  map fst (reindex columns row) = columns.
Proof. unfold reindex. rewrite map_map. simpl. apply map_id. Qed.

(** The [ID] column is there as soon as the rows of the searches have an
    [ID] cell: the filter on found sensors cannot raise. *)
Lemma filter_notna_id_succeeds (requested : list string) :
  search_rows_have_id w -> requested <> [] ->
  exists valid, filter_notna "ID" (combined_results_of w requested) = Ok valid.
Proof.
  intros Hid Hne. unfold filter_notna.
  assert (Hcol : str_in "ID" (frame_columns (combined_results_of w requested)) = true).
  { destruct requested as [| n requested]; [contradiction |].
    destruct (search_frame w n) as [| r0 rest] eqn:Ef;
      [exfalso; exact (search_frame_nonempty w n Ef) |].
    assert (Hr0 : In r0 (search_frame w n)) by (rewrite Ef; left; reflexivity).
    assert (Hhas : exists v, dict_get "ID" r0 = Some v).
    { unfold search_frame in Hr0.
      destruct (spy_search w n) as [[| r rs] | e] eqn:Es.
      - destruct Hr0 as [<- | []]. eexists. reflexivity.
      - unfold set_column in Hr0. apply in_map_iff in Hr0.
        destruct Hr0 as [r1 [<- Hr1]].
        pose proof (Hid n (r :: rs) r1 Es Hr1) as H. unfold dict_has in H.
        rewrite dict_get_set_other by reflexivity.
        destruct (dict_get "ID" r1) as [v |]; [eauto | discriminate].
      - destruct Hr0 as [<- | []]. eexists. reflexivity. }
    destruct Hhas as [v Hv].
    destruct (combined_results_row w (n :: requested) n r0 (or_introl eq_refl) Hr0)
      as (row & Hin & Hcell & _).
    apply str_in_In. unfold frame_columns. apply unique_first_keeps; [| reflexivity].
    apply in_concat. exists (map fst row). split; [apply in_map; exact Hin |].
    exact (dict_get_key _ _ _ (Hcell _ _ Hv)). }
  rewrite Hcol. eauto.
Qed.

End Pull.

(** X18: the [UnboundLocalError] of the outermost handler cannot happen
    with a well-formed request: if [sensor_names] is a list and the rows
    the searches return have an [ID] cell, [search_and_pull_sensors]
    returns an envelope with a boolean [success], and [error] or
    [traceback] only next to [success: False]. *)
Theorem search_and_pull_sensors_returns_envelope_for_lists :
  forall w requested start_datetime end_datetime grid timezone
         url access_key password auth_provider ignore_ssl_errors s,
    search_rows_have_id w ->
    exists env s',
      call (search_and_pull_sensors w (Some requested) start_datetime end_datetime grid
              timezone url access_key password auth_provider ignore_ssl_errors) s
      = (Ok (Some env), s') /\
      envelope_ok env.
Proof.
  intros w requested start_datetime end_datetime grid timezone
         url access_key password auth_provider ignore_ssl_errors s Hid.
  rewrite search_and_pull_sensors_stages.
  pose proof (authenticate_block_outcome w url access_key password auth_provider
                ignore_ssl_errors (set_local_traceback false s)) as Hauth.
  destruct (authenticate_block w url access_key password auth_provider
              ignore_ssl_errors (set_local_traceback false s)) as [[[] | env | e] s1].
  - destruct Hauth as [_ [_ Htb]]. simpl in Htb.
    destruct (fst (resolve_datetimes w start_datetime end_datetime timezone tt))
      as [[start_dt end_dt] | env | e] eqn:Er.
    + rewrite (search_and_pull_block_run w requested start_dt end_dt start_datetime
                 end_datetime grid url s1 Htb).
      cbv zeta.
      destruct requested as [| n requested].
      * eexists; eexists. split; [reflexivity |].
        split; [eexists; reflexivity | reflexivity].
      * destruct (filter_notna_id_succeeds w (n :: requested) Hid) as [valid ->];
          [discriminate |].
        destruct valid as [| row rest].
        -- eexists; eexists. split; [reflexivity |].
           split; [eexists; reflexivity | reflexivity].
        -- destruct (spy_pull w _ start_dt end_dt grid) as [data_df | e];
             (eexists; eexists; split; [reflexivity |]);
             (split; [eexists; reflexivity | intros H; try reflexivity; discriminate H]).
    + apply resolve_datetimes_returned in Er. subst env.
      eexists; eexists. split; [reflexivity |].
      split; [eexists; reflexivity | reflexivity].
    + eexists; eexists. split; [reflexivity |].
      split; [eexists; reflexivity | reflexivity].
  - destruct Hauth as [Hok _]. eexists; eexists. split; [reflexivity | exact Hok].
  - contradiction.
Qed.

Lemma search_and_pull_sensors_returns_envelope_for_lists_witness :
  exists env s',
    sample_pull (Some ["TEMP.1"; "BROKEN"]) (PStr "2025-09-01") (PStr "2025-09-02") PNone
    = (Ok (Some env), s') /\
    envelope_ok env.
Proof.
  apply (search_and_pull_sensors_returns_envelope_for_lists sample_world
           ["TEMP.1"; "BROKEN"] (PStr "2025-09-01") (PStr "2025-09-02") (PStr "15min")
           PNone sample_url sample_key sample_password (PStr "Seeq") (PBool false)
           initial_state).
  intros name rows row Hs Hin.
  unfold sample_world, spy_search, sample_search in Hs.
  destruct (String.eqb name "TEMP.1").
  - injection Hs as <-.
    destruct Hin as [<- | [<- | []]]; reflexivity.
  - destruct (String.eqb name "BROKEN"); [discriminate Hs |].
    injection Hs as <-. destruct Hin.
Defined.




Section PullPaths.

Variable w : World.







Lemma search_and_pull_block_null
    (start_dt end_dt : dtobj) (start_datetime end_datetime grid url : pyval)
    (s1 : state) :
  local_traceback s1 = false ->
  call (try_except (search_and_pull_block w None start_dt end_dt
                      start_datetime end_datetime grid url) outer_handler) s1
  = (Raise (UnboundLocalError
              "cannot access local variable 'traceback' where it is not associated with a value"),
     s1).
Proof.
  intros Htb. unfold search_and_pull_block, call.
  assert (Hset : forall s,
             (if py_truthy url
              then try_except (lift (spy_set_server w url)) (fun _ => ret tt)
              else ret tt) s = (Normal tt, s) :> outcome pydict unit * state).
  { intros s. destruct (py_truthy url); [| reflexivity].
    unfold try_except, lift, ret. destruct (spy_set_server w url) as [[] |]; reflexivity. }
  unfold try_except at 1, bind at 1. rewrite Hset.
  unfold bind at 1, search_loop, bind at 1, iterate, raise, outer_handler, bind, gets.
  rewrite Htb. reflexivity.
Qed.

(** The authentication block issues at most the one login call. *)
Lemma authenticate_block_calls
    (url access_key password auth_provider ignore_ssl_errors : pyval) (s : state)
    (o : outcome pydict unit) (s1 : state) :
  authenticate_block w url access_key password auth_provider ignore_ssl_errors s
  = (o, s1) ->
  local_traceback s1 = local_traceback s /\
  exists l,
    calls s1 = (calls s ++ l)%list /\
    (l = [] \/
     l = [CallLogin url access_key password
            (coerce_ignore_ssl_errors ignore_ssl_errors)]).
Proof.
  unfold authenticate_block.
  destruct (py_truthy url && py_truthy access_key && py_truthy password).
  2:{ unfold return_. intros H. injection H as _ <-.
      split; [reflexivity |]. exists []. rewrite app_nil_r. auto. }
  destruct (authenticate_seeq_returns w url access_key password auth_provider
              ignore_ssl_errors s)
    as (env & s' & E & [[b Hb] _] & Htb & Hl & _).
  unfold invoke, call, bind at 1. rewrite E.
  unfold bind at 1, subscript. rewrite Hb. unfold ret at 1.
  destruct b; simpl py_truthy; simpl negb; cbv iota.
  - unfold bind, ret, gets, return_.
    destruct (spy_user s'); intros H; injection H as _ <-; split; assumption.
  - unfold bind at 1, bind at 1, get_or.
    destruct (dict_get "error" env); unfold ret, return_;
      intros H; injection H as _ <-; split; assumption.
Qed.

End PullPaths.








(** X23: the remote calls of one [search_and_pull_sensors] come in a fixed
    order: at most one login, then either no search or one search per
    requested name in the order of the request, then at most one pull, and
    a pull only after all the searches. *)
Theorem remote_calls_are_login_searches_pull :
  forall w names start_datetime end_datetime grid timezone
         url access_key password auth_provider ignore_ssl_errors s,
  exists logins searches pulls,
    calls (snd (call (search_and_pull_sensors w names start_datetime end_datetime grid
                        timezone url access_key password auth_provider
                        ignore_ssl_errors) s))
    = (calls s ++ logins ++ searches ++ pulls)%list /\
    (logins = [] \/
     logins = [CallLogin url access_key password
                 (coerce_ignore_ssl_errors ignore_ssl_errors)]) /\
    (searches = [] \/
     exists requested, names = Some requested /\ searches = map CallSearch requested) /\
    (pulls = [] \/
     exists requested valid start_dt end_dt,
       names = Some requested /\ searches = map CallSearch requested /\
       filter_notna "ID" (combined_results_of w requested) = Ok valid /\
       pulls = [CallPull (drop_duplicates "Original_Name" valid) start_dt end_dt grid]).
Proof.
  intros w names start_datetime end_datetime grid timezone
         url access_key password auth_provider ignore_ssl_errors s.
  rewrite search_and_pull_sensors_stages.
  destruct (authenticate_block w url access_key password auth_provider
              ignore_ssl_errors (set_local_traceback false s)) as [o s1] eqn:Eb.
  destruct (authenticate_block_calls w _ _ _ _ _ _ _ _ Eb) as [Htb (l & Hl & Hlogin)].
  simpl in Htb, Hl.
  assert (Hstop : forall s', calls s' = calls s1 ->
            exists logins searches pulls,
              calls s' = (calls s ++ logins ++ searches ++ pulls)%list /\
              (logins = [] \/
               logins = [CallLogin url access_key password
                           (coerce_ignore_ssl_errors ignore_ssl_errors)]) /\
              (searches = [] \/
               exists requested,
                 names = Some requested /\ searches = map CallSearch requested) /\
              (pulls = [] \/
               exists requested valid start_dt end_dt,
                 names = Some requested /\ searches = map CallSearch requested /\
                 filter_notna "ID" (combined_results_of w requested) = Ok valid /\
                 pulls = [CallPull (drop_duplicates "Original_Name" valid)
                            start_dt end_dt grid])).
  { intros s' Hs'. exists l, [], []. rewrite Hs', Hl, !app_nil_r. auto. }
  destruct o as [[] | env | e].
  2:{ apply Hstop. reflexivity. }
  2:{ apply Hstop. unfold call, outer_handler, bind, gets.
      destruct (local_traceback s1); reflexivity. }
  destruct (fst (resolve_datetimes w start_datetime end_datetime timezone tt))
    as [[start_dt end_dt] | env | e].
  2:{ apply Hstop. reflexivity. }
  2:{ apply Hstop. reflexivity. }
  destruct names as [requested |].
  2:{ rewrite search_and_pull_block_null by exact Htb. apply Hstop. reflexivity. }
  rewrite search_and_pull_block_run by exact Htb. cbv zeta.
  assert (Hsearched : forall s',
            calls s' = calls (log_calls (map CallSearch requested) s1) ->
            exists logins searches pulls,
              calls s' = (calls s ++ logins ++ searches ++ pulls)%list /\
              (logins = [] \/
               logins = [CallLogin url access_key password
                           (coerce_ignore_ssl_errors ignore_ssl_errors)]) /\
              (searches = [] \/
               exists requested0,
                 Some requested = Some requested0 /\
                 searches = map CallSearch requested0) /\
              (pulls = [] \/
               exists requested0 valid start_dt0 end_dt0,
                 Some requested = Some requested0 /\
                 searches = map CallSearch requested0 /\
                 filter_notna "ID" (combined_results_of w requested0) = Ok valid /\
                 pulls = [CallPull (drop_duplicates "Original_Name" valid)
                            start_dt0 end_dt0 grid])).
  { intros s' Hs'. exists l, (map CallSearch requested), [].
    rewrite Hs'. simpl calls. rewrite Hl, app_nil_r, app_assoc.
    split; [reflexivity |]. split; [exact Hlogin |]. split; [| auto].
    right. exists requested. auto. }
  destruct requested as [| n requested]; [apply Hsearched; reflexivity |].
  destruct (filter_notna "ID" (combined_results_of w (n :: requested)))
    as [[| row rest] | e] eqn:Ef;
    [apply Hsearched; reflexivity | | apply Hsearched; reflexivity].
  set (kept := drop_duplicates "Original_Name" (row :: rest)).
  assert (Hpulled : forall s',
            calls s' = calls (log_call (CallPull kept start_dt end_dt grid)
                                (log_calls (map CallSearch (n :: requested)) s1)) ->
            exists logins searches pulls,
              calls s' = (calls s ++ logins ++ searches ++ pulls)%list /\
              (logins = [] \/
               logins = [CallLogin url access_key password
                           (coerce_ignore_ssl_errors ignore_ssl_errors)]) /\
              (searches = [] \/
               exists requested0,
                 Some (n :: requested) = Some requested0 /\
                 searches = map CallSearch requested0) /\
              (pulls = [] \/
               exists requested0 valid start_dt0 end_dt0,
                 Some (n :: requested) = Some requested0 /\
                 searches = map CallSearch requested0 /\
                 filter_notna "ID" (combined_results_of w requested0) = Ok valid /\
                 pulls = [CallPull (drop_duplicates "Original_Name" valid)
                            start_dt0 end_dt0 grid])).
  { intros s' Hs'.
    exists l, (map CallSearch (n :: requested)), [CallPull kept start_dt end_dt grid].
    rewrite Hs'. unfold log_call, log_calls. cbn [calls].
    rewrite Hl, <- !app_assoc.
    split; [reflexivity |]. split; [exact Hlogin |].
    split; [right; exists (n :: requested); auto |].
    right. exists (n :: requested), (row :: rest), start_dt, end_dt. auto. }
  destruct (spy_pull w kept start_dt end_dt grid) as [data_df | e];
    apply Hpulled; reflexivity.
Qed.

(** ** The command-line entry point *)

Section MainProperties.

Variable w : World.
Variable json_loads : string -> result pyval.




Lemma is_clean_serializable (v : pyval) :
  is_clean v = true -> json_serializable v = true.
Proof.
  induction v as [ | b | z | f | s | t | | l IH | d IH] using pyval_deep_ind;
    intros H; try reflexivity; try discriminate H.
  - simpl in *. induction IH as [| y l Hy _ IHl]; [reflexivity |].
    simpl in *. apply andb_prop in H. destruct H as [H1 H2].
    rewrite (Hy H1), (IHl H2). reflexivity.
  - simpl in *. induction IH as [| kv d Hkv _ IHd]; [reflexivity |].
    simpl in *. apply andb_prop in H. destruct H as [H1 H2].
    rewrite (Hkv H1), (IHd H2). reflexivity.
Qed.

Lemma strings_serializable (f : pyval -> string) (l : list pyval) :
  forallb json_serializable (map (fun x => PStr (f x)) l) = true.
Proof. induction l; simpl; auto. Qed.

Lemma column_names_serializable (l : list string) :
  forallb json_serializable (map PStr l) = true.
Proof. induction l; simpl; auto. Qed.

End MainProperties.



(** X25: a name the dispatcher does not know is answered with
    "Unknown function: <name>" and exit status 0, without running anything;
    but the arguments are decoded before the name is looked at, so with
    undecodable arguments the same name gives an "Execution error" and exit
    status 1. *)
Theorem unknown_function_reported :
  forall w json_loads script function_name args_json rest s,
    ~ In function_name operation_names ->
    (forall args, json_loads args_json = Ok args ->
       main w json_loads (script :: function_name :: args_json :: rest) s
       = Some ([Dumps (PDict (unknown_function_envelope function_name))], 0, s)) /\
    (forall e, json_loads args_json = Raise e ->
       main w json_loads (script :: function_name :: args_json :: rest) s
       = Some ([Dumps (PDict (execution_error_envelope e))], 1, s)).
Proof.
  intros w json_loads script function_name args_json rest s Hunknown.
  assert (Hne : forall name, In name operation_names ->
                             String.eqb function_name name = false).
  { intros name Hin. destruct (String.eqb function_name name) eqn:E; [| reflexivity].
    apply String.eqb_eq in E. subst. contradiction. }
  unfold operation_names in Hne.
  split.
  - intros args Hargs. unfold main, run_operation. rewrite Hargs.
    unfold dispatch.
    rewrite !Hne by (simpl; auto 10). reflexivity.
  - intros e He. unfold main, run_operation. rewrite He. reflexivity.
Qed.

Lemma unknown_function_reported_witness :
  main sample_world sample_loads ["seeq_runner.py"; "logout"; "[]"] initial_state
  = Some ([Dumps (PDict (unknown_function_envelope "logout"))], 0, initial_state) /\
  main sample_world sample_loads ["seeq_runner.py"; "logout"; "{"] initial_state
  = Some ([Dumps (PDict (execution_error_envelope
                           (mk_exn "JSONDecodeError" "Expecting value")))],
          1, initial_state).
Proof.
  assert (Hunknown : ~ In "logout" operation_names).
  { intros H. simpl in H.
    repeat (destruct H as [H | H]; [discriminate H |]). exact H. }
  split.
  - apply (proj1 (unknown_function_reported sample_world sample_loads "seeq_runner.py"
                    "logout" "[]" [] initial_state Hunknown) (PList [])).
    reflexivity.
  - apply (proj2 (unknown_function_reported sample_world sample_loads "seeq_runner.py"
                    "logout" "{" [] initial_state Hunknown)
             (mk_exn "JSONDecodeError" "Expecting value")).
    reflexivity.
Defined.

(** X26: the success envelope of [search_and_pull_sensors] is plain JSON
    data: thanks to the sanitiser the entry point writes it with the plain
    writer, never with the [default=str] fallback. *)
Theorem success_envelope_needs_no_fallback :
  forall w combined_results valid_sensors data_df start_datetime end_datetime,
    json_serializable
      (PDict (pull_success_envelope w combined_results valid_sensors data_df
                start_datetime end_datetime)) = true /\
    emit (PDict (pull_success_envelope w combined_results valid_sensors data_df
                   start_datetime end_datetime))
    = Dumps (PDict (pull_success_envelope w combined_results valid_sensors data_df
                      start_datetime end_datetime)).
Proof.
  intros w combined_results valid_sensors data_df start_datetime end_datetime.
  assert (H : json_serializable
                (PDict (pull_success_envelope w combined_results valid_sensors data_df
                          start_datetime end_datetime)) = true).
  { unfold pull_success_envelope.
    cbn [json_serializable forallb snd].
    rewrite (is_clean_serializable _ (clean_for_json_is_clean _)).
    rewrite (is_clean_serializable _ (clean_for_json_is_clean _)).
    rewrite column_names_serializable, strings_serializable. reflexivity. }
  split; [exact H |]. unfold emit, json_dumps. rewrite H. reflexivity.
Qed.

(** ** The module [seeq_auth.py] *)

(** X27: [test_connection] of [seeq_auth.py] never raises and reports
    success exactly when the status request came back with code 200.  Any
    other code gives [success: False] with the code and no [error] key; a
    timeout while connecting, which is both a [ConnectionError] and a
    [Timeout], is reported as "ConnectionError", the first handler. *)
Theorem auth_test_connection_succeeds_on_200_only :
  forall w requests_get url s,
  exists env,
    call (SeeqAuth.test_connection w requests_get url) s = (Ok (Some env), s) /\
    envelope_ok env /\
    (dict_get "success" env = Some (PBool true) <->
     exists response,
       requests_get (py_str w url ++ "/api/status") = Ok response /\
       status_code response = 200) /\
    (forall response,
        requests_get (py_str w url ++ "/api/status") = Ok response ->
        dict_get "status_code" env = Some (PInt (status_code response)) /\
        dict_has "error" env = false) /\
    (forall e,
        requests_get (py_str w url ++ "/api/status") = Raise e ->
        exn_type e = "ConnectTimeout" ->
        dict_get "error" env = Some (PStr "ConnectionError")).
Proof.
  intros w requests_get url s.
  unfold SeeqAuth.test_connection. run_monad.
  destruct (requests_get (py_str w url ++ "/api/status")) as [response | e] eqn:Eg.
  - destruct (status_code response =? 200) eqn:Ec.
    + eexists. split; [reflexivity |].
      split; [split; [eexists; reflexivity | intros H; discriminate H] |].
      split; [split; [intros _; exists response; split;
                      [reflexivity | apply Z.eqb_eq; exact Ec]
                     | reflexivity] |].
      split; [intros r Hr; injection Hr as <-; split; reflexivity |].
      intros e He. discriminate He.
    + eexists. split; [reflexivity |].
      split; [split; [eexists; reflexivity | intros H; discriminate H] |].
      split; [split; [intros H; discriminate H |] |].
      { intros (r & Hr & Hcode). injection Hr as <-.
        apply Z.eqb_neq in Ec. contradiction. }
      split; [intros r Hr; injection Hr as <-; split; reflexivity |].
      intros e He. discriminate He.
  - destruct (requests_isinstance e "ConnectionError") eqn:E1;
      [| destruct (requests_isinstance e "Timeout") eqn:E2];
      (eexists; split; [reflexivity |]);
      (split; [split; [eexists; reflexivity | reflexivity] |]);
      (split; [split; [intros H; discriminate H
                      | intros (r & Hr & _); discriminate Hr] |]);
      (split; [intros r Hr; discriminate Hr |]);
      intros e' He' Ht; injection He' as <-;
      unfold requests_isinstance in E1; rewrite Ht in E1; try reflexivity;
      discriminate E1.
Qed.

Lemma auth_test_connection_succeeds_on_200_only_witness :
  exists env,
    call (SeeqAuth.test_connection sample_world slow_server sample_url) initial_state
    = (Ok (Some env), initial_state) /\
    dict_get "error" env = Some (PStr "ConnectionError").
Proof.
  destruct (auth_test_connection_succeeds_on_200_only sample_world slow_server
              sample_url initial_state) as (env & E & _ & _ & _ & Htimeout).
  exists env. split; [exact E |].
  apply (Htimeout (mk_exn "ConnectTimeout" "connection to host timed out"));
    reflexivity.
Defined.

(** X28: [get_server_info] of [seeq_auth.py] never raises.  With code 200
    it answers [success: True] both for a JSON body, returned as
    [server_info], and for a body that is not JSON, returned as text under
    [raw_response]; with any other code it answers [success: False] with
    the code. *)
Theorem auth_get_server_info_cases :
  forall w requests_get url s,
  exists env,
    call (SeeqAuth.get_server_info w requests_get url) s = (Ok (Some env), s) /\
    envelope_ok env /\
    (forall response,
        requests_get (py_str w url ++ "/api/status") = Ok response ->
        (status_code response = 200 ->
         (forall data, response_json response = Ok data ->
            dict_get "success" env = Some (PBool true) /\
            dict_get "server_info" env = Some data) /\
         (forall e, response_json response = Raise e ->
            is_instance e "JSONDecodeError" = true ->
            dict_get "success" env = Some (PBool true) /\
            dict_get "server_info" env
            = Some (PDict [("raw_response", PStr (response_text response))]))) /\
        (status_code response <> 200 ->
         dict_get "success" env = Some (PBool false) /\
         dict_get "status_code" env = Some (PInt (status_code response)))) /\
    (forall e,
        requests_get (py_str w url ++ "/api/status") = Raise e ->
        dict_get "success" env = Some (PBool false) /\
        dict_get "error" env = Some (PStr (exn_msg e))).
Proof.
  intros w requests_get url s.
  unfold SeeqAuth.get_server_info. run_monad.
  destruct (requests_get (py_str w url ++ "/api/status")) as [response | e].
  - destruct (status_code response =? 200) eqn:Ec.
    + apply Z.eqb_eq in Ec.
      destruct (response_json response) as [data | e] eqn:Ej;
        [| destruct (is_instance e "JSONDecodeError") eqn:Ei];
        (eexists; split; [reflexivity |]);
        (split; [split; [eexists; reflexivity
                        | intros H; try reflexivity; discriminate H] |]);
        (split; [| intros e' He'; discriminate He']);
        intros r Hr; injection Hr as <-;
        (split; [| intros Hne; contradiction]);
        intros _; rewrite Ej;
        (split; [intros d Hd | intros e' He' Hi]);
        try discriminate;
        try (injection Hd as <-; split; reflexivity);
        try (injection He' as <-; split; reflexivity).
      injection He' as <-. rewrite Ei in Hi. discriminate Hi.
    + apply Z.eqb_neq in Ec.
      eexists. split; [reflexivity |].
      split; [split; [eexists; reflexivity | intros H; discriminate H] |].
      split; [| intros e' He'; discriminate He'].
      intros r Hr. injection Hr as <-.
      split; [intros H; contradiction | intros _; split; reflexivity].
  - eexists. split; [reflexivity |].
    split; [split; [eexists; reflexivity | reflexivity] |].
    split; [intros r Hr; discriminate Hr |].
    intros e' He'. injection He' as <-. split; reflexivity.
Qed.

Lemma auth_get_server_info_cases_witness :
  exists env,
    call (SeeqAuth.get_server_info sample_world unavailable_server sample_url)
      initial_state = (Ok (Some env), initial_state) /\
    dict_get "success" env = Some (PBool false) /\
    dict_get "status_code" env = Some (PInt 503).
Proof.
  destruct (auth_get_server_info_cases sample_world unavailable_server sample_url
              initial_state) as (env & E & _ & Hresp & _).
  exists env. split; [exact E |].
  apply (Hresp (mk_response 503 (Raise (mk_exn "JSONDecodeError" "Expecting value"))
                  "busy") eq_refl).
  discriminate.
Defined.

(** X29: [authenticate_seeq] and [check_auth_status] of [seeq_auth.py]
    cannot succeed: the module never binds the name [spy], so both always
    return [success: False] with the error "name 'spy' is not defined",
    issue no remote call and leave the state as it is. *)
Theorem auth_module_functions_fail_on_unbound_spy :
  forall w url access_key password auth_provider ignore_ssl_errors s,
    (exists env,
        call (SeeqAuth.authenticate_seeq w url access_key password auth_provider
                ignore_ssl_errors) s = (Ok (Some env), s) /\
        dict_get "success" env = Some (PBool false) /\
        dict_get "error" env = Some (PStr "name 'spy' is not defined") /\
        dict_has "traceback" env = true) /\
    (exists env,
        call SeeqAuth.check_auth_status s = (Ok (Some env), s) /\
        dict_get "success" env = Some (PBool false) /\
        dict_get "isAuthenticated" env = Some (PBool false) /\
        dict_get "error" env = Some (PStr "name 'spy' is not defined")).
Proof.
  intros w url access_key password auth_provider ignore_ssl_errors s.
  split; eexists; (split; [reflexivity |]); repeat split.
Qed.

(** X30: [test_connection] and [get_server_info] of the runner do not
    reach the server: for every url they answer [success: True] and leave
    the state, the log of remote calls included, as it was; the url is only
    echoed by [get_server_info]. *)
Theorem runner_probes_never_contact_server :
  forall url s,
    (exists env,
        call (test_connection url) s = (Ok (Some env), s) /\
        dict_get "success" env = Some (PBool true) /\
        dict_get "status_code" env = Some (PStr "OK")) /\
    (exists env,
        call (get_server_info url) s = (Ok (Some env), s) /\
        dict_get "success" env = Some (PBool true) /\
        dict_get "server_info" env
        = Some (PDict [("status", PStr "Available"); ("url", url)])).
Proof.
  intros url s. split; eexists; (split; [reflexivity |]); split; reflexivity.
Qed.
